(** * Tendies extension tutorial: layer injection, inference adapter, client

    A shallow embedding of the Python code cells of
    [full_functionality/tendies-extension-tutorial.ipynb]:

    - the two layer-injection functions [bitstring_to_uint8_tensor] and
      [object_detection_dict_to_tensor_dict],
    - the closure [object_detection_inference] around the detection model,
    - the client helpers [bitstring_to_uint8_tensor] (client version),
      [get_category_index] and [visualize].

    The cells are TensorFlow 1.x graph code: a [tf.*] call adds an operation
    to the default graph and returns a handle to its output; values only
    exist when the graph is run.  The embedding keeps that shape: the graph
    is an append-only store of nodes, a tensor is an index into it, Python
    statements are computations in a state-and-exception monad over the
    interpreter state, and [eval] gives the value a handle takes in a run.

    A call can fail at either moment.  While the graph is built the call
    itself raises on what is known before any run: the dtype of a tensor,
    a shape that is declared, a negative channel count, a name that is no
    operation name.  What depends on the data (the bytes of a picture, the
    size of a decoded image) fails in the run of the tensor.  The calls of
    the [tf] module below raise for the first kind; [eval] for the second.
    Operations are named as the graph names them: a name in use is not
    given twice, the operation gets the next free numbered name. *)

From Stdlib Require Import String Ascii DecimalString DecimalPos DecimalZ.
From Stdlib Require Import ZArith List Bool Arith Lia.
Import ListNotations.

Local Open Scope string_scope.
Local Open Scope list_scope.
Local Open Scope nat_scope.

(* ================================================================== *)
(** ** Python exceptions and the interpreter monad *)

(** The exceptions the modelled code can meet. *)
Inductive exn : Type :=
| KeyError (key : string)            (* d[k] on a missing key *)
| TypeError                          (* operand of the wrong kind *)
| ValueError                         (* a call refused while the graph is built, ... *)
| InvalidArgumentError               (* raised by a TensorFlow kernel *)
| NotFoundError (path : string)      (* a file that cannot be read *)
| DanglingReference.                 (* a reference to no object; not reachable from Python *)

(** What a statement leaves: a value, or a raised exception. *)
Inductive outcome (A : Type) : Type :=
| Ret (a : A)
| Raise (e : exn).
Arguments Ret {A} a.
Arguments Raise {A} e.

(** A computation over interpreter state [W].  A raised exception does not
    roll the state back: the state is returned beside the outcome. *)
Definition Py (W A : Type) : Type := W -> outcome A * W.

Definition ret {W A} (a : A) : Py W A := fun w => (Ret a, w).

Definition raise {W A} (e : exn) : Py W A := fun w => (Raise e, w).

Definition bind {W A B} (m : Py W A) (k : A -> Py W B) : Py W B :=
  fun w =>
    match m w with
    | (Ret a, w') => k a w'
    | (Raise e, w') => (Raise e, w')
    end.

Declare Scope py_scope.
Delimit Scope py_scope with py.
Notation "x <- m ;; k" := (bind m (fun x => k))
  (at level 61, m at next level, right associativity) : py_scope.
Notation "' pat <- m ;; k" := (bind m (fun x => match x with pat => k end))
  (at level 61, pat pattern, m at next level, right associativity) : py_scope.
Notation "m ;; k" := (bind m (fun _ => k))
  (at level 61, right associativity) : py_scope.

Definition gets {W A} (f : W -> A) : Py W A := fun w => (Ret (f w), w).

Definition modify {W} (f : W -> W) : Py W unit := fun w => (Ret tt, f w).

(** [Some] or the given exception. *)
Definition from_option {W A} (o : option A) (e : exn) : Py W A :=
  match o with
  | Some a => ret a
  | None => raise e
  end.

(** A Python [for x in xs: s = body(x, s)] loop: the loop's mutable locals
    are the accumulator [s]; an exception leaves the loop. *)
Fixpoint py_for {W A S} (xs : list A) (body : A -> S -> Py W S) (s : S) : Py W S :=
  match xs with
  | [] => ret s
  | x :: rest => (s' <- body x s ;; py_for rest body s')%py
  end.

(** Value and final state of a run. *)
Definition result_of {W A} (r : outcome A * W) : outcome A := fst r.
Definition state_of {W A} (r : outcome A * W) : W := snd r.

(* ================================================================== *)
(** ** Python dictionaries *)

Module PyDict.

(** Keys of an association list, in order. *)
Definition keys_of {V} (l : list (string * V)) : list string := map fst l.

Fixpoint mem (k : string) (ks : list string) : bool :=
  match ks with
  | [] => false
  | k' :: rest => if String.eqb k k' then true else mem k rest
  end.

Fixpoint nodupb (ks : list string) : bool :=
  match ks with
  | [] => true
  | k :: rest => negb (mem k rest) && nodupb rest
  end.

(** A [dict] with string keys: its entries in insertion order, which is the
    order [items()] and [keys()] iterate in, and no key twice. *)
Record t (V : Type) : Type := mk {
  entries : list (string * V);
  entries_nodup : nodupb (keys_of entries) = true
}.
Arguments mk {V} entries entries_nodup.
Arguments entries {V} _.
Arguments entries_nodup {V} _.

(** [d.items()] *)
Definition items {V} (d : t V) : list (string * V) := entries d.

(** [list(d.keys())] *)
Definition keys {V} (d : t V) : list string := keys_of (entries d).

Fixpoint assoc {V} (k : string) (l : list (string * V)) : option V :=
  match l with
  | [] => None
  | (k', v) :: rest => if String.eqb k k' then Some v else assoc k rest
  end.

(** [d.get(k)] *)
Definition get {V} (d : t V) (k : string) : option V := assoc k (entries d).

End PyDict.

(* ================================================================== *)
(** ** Tensor values *)

(** Numeric element types of the tensors the notebook handles. *)
Inductive dtype : Type := DT_UINT8 | DT_INT32 | DT_INT64 | DT_FLOAT.

Definition dtype_eqb (a b : dtype) : bool :=
  match a, b with
  | DT_UINT8, DT_UINT8 | DT_INT32, DT_INT32 | DT_INT64, DT_INT64 | DT_FLOAT, DT_FLOAT => true
  | _, _ => false
  end.

(** Element arithmetic is the tensor library's, not the notebook's: the
    development is generic in the carrier of numeric elements and in the
    three operations the cells reach. *)
Class Numeric (num : Type) : Type := {
  (* a Python int written next to a tensor, as a constant of the tensor's dtype *)
  num_of_Z : dtype -> Z -> num;
  (* elementwise [+] at a dtype *)
  num_add : dtype -> num -> num -> num;
  (* [tf.cast] from one dtype to another *)
  num_cast : dtype -> dtype -> num -> num
}.

(** The value of a tensor in a run: a string tensor (encoded images travel
    as [tf.string]) or a numeric array, with shape and row-major elements. *)
Inductive tvalue (num : Type) : Type :=
| VString (shape : list Z) (items : list string)
| VNumeric (dt : dtype) (shape : list Z) (items : list num).
Arguments VString {num} shape items.
Arguments VNumeric {num} dt shape items.

(** A decoded picture as the codec hands it over: its size, the channels
    stored in the file, and the samples for a given number of output
    channels. *)
Record image : Type := {
  img_height : nat;
  img_width : nat;
  img_channels : nat;
  img_samples : Z -> list Z
}.

(** The image codecs behind [tf.image.decode_png] and
    [tf.image.decode_jpeg]: [None] on bytes that are no such image. *)
Class ImageCodec : Type := {
  png_parse : string -> option image;
  jpeg_parse : string -> option image
}.

Module nd.
Section Values.
Context {num : Type} {NUM : Numeric num}.

Definition shape (v : tvalue num) : list Z :=
  match v with
  | VString sh _ => sh
  | VNumeric _ sh _ => sh
  end.

Definition rank (v : tvalue num) : nat := length (shape v).

(** Number of elements a shape holds. *)
Definition num_elements (sh : list Z) : Z := fold_right Z.mul 1%Z sh.

Definition with_shape (v : tvalue num) (sh : list Z) : tvalue num :=
  match v with
  | VString _ xs => VString sh xs
  | VNumeric dt _ xs => VNumeric dt sh xs
  end.

(** The shape [tf.reshape] gives a tensor of [n] elements for the requested
    [target]: one entry may be [-1] and is then inferred; otherwise the
    element counts must agree. *)
Definition reshape_shape (n : Z) (target : list Z) : option (list Z) :=
  if existsb (fun d => d <? -1)%Z target then None
  else
    match filter (fun d => d =? -1)%Z target with
    | [] => if (num_elements target =? n)%Z then Some target else None
    | [_] =>
        let known := num_elements (filter (fun d => negb (d =? -1)%Z) target) in
        if (known =? 0)%Z then None
        else if (n mod known =? 0)%Z
             then Some (map (fun d => if (d =? -1)%Z then (n / known)%Z else d) target)
             else None
    | _ => None
    end.

Definition reshape (v : tvalue num) (target : list Z) : outcome (tvalue num) :=
  match reshape_shape (num_elements (shape v)) target with
  | Some sh => Ret (with_shape v sh)
  | None => Raise InvalidArgumentError
  end.

Fixpoint insert_at {A} (n : nat) (a : A) (l : list A) : list A :=
  match n, l with
  | O, _ => a :: l
  | S n', [] => [a]
  | S n', x :: l' => x :: insert_at n' a l'
  end.

(** The shape [tf.expand_dims] gives: a dimension of size 1 at [axis],
    counted from the end when negative. *)
Definition expand_shape (sh : list Z) (axis : Z) : option (list Z) :=
  let r := Z.of_nat (length sh) in
  if ((- r - 1 <=? axis) && (axis <=? r))%Z
  then
    let pos := if (axis <? 0)%Z then (axis + r + 1)%Z else axis in
    Some (insert_at (Z.to_nat pos) 1%Z sh)
  else None.

(** [tf.expand_dims] *)
Definition expand_dims (v : tvalue num) (axis : Z) : outcome (tvalue num) :=
  match expand_shape (shape v) axis with
  | Some sh => Ret (with_shape v sh)
  | None => Raise InvalidArgumentError
  end.

(** [x + y] for a scalar [y] of the dtype of [x], which is what
    [tensor + 1] builds; the other broadcasts of [+] are not reached by the
    cells. *)
Definition add (x y : tvalue num) : outcome (tvalue num) :=
  match x, y with
  | VNumeric dt sh xs, VNumeric dt' [] [k] =>
      if dtype_eqb dt dt'
      then Ret (VNumeric dt sh (map (fun a => num_add dt a k) xs))
      else Raise InvalidArgumentError
  | _, _ => Raise InvalidArgumentError
  end.

(** [tf.cast] to a numeric dtype. *)
Definition cast (v : tvalue num) (dt' : dtype) : outcome (tvalue num) :=
  match v with
  | VNumeric dt sh xs => Ret (VNumeric dt' sh (map (num_cast dt dt') xs))
  | VString _ _ => Raise TypeError
  end.

(** An image decoder as TensorFlow wraps it: the contents must be a scalar
    string, [channels] one of the [accepted] numbers, where 0 keeps the
    channels of the file; the result is a uint8 array of shape
    [height, width, channels]. *)
Definition decode_image (parse : string -> option image) (accepted : list Z)
    (contents : tvalue num) (channels : Z) : outcome (tvalue num) :=
  match contents with
  | VString [] [s] =>
      if existsb (Z.eqb channels) accepted
      then
        match parse s with
        | Some img =>
            let c := if (channels =? 0)%Z then Z.of_nat (img_channels img) else channels in
            Ret (VNumeric DT_UINT8
                   [Z.of_nat (img_height img); Z.of_nat (img_width img); c]
                   (map (num_of_Z DT_UINT8) (img_samples img c)))
        | None => Raise InvalidArgumentError
        end
      else Raise InvalidArgumentError
  | _ => Raise InvalidArgumentError
  end.

Definition decode_png {codec : ImageCodec} : tvalue num -> Z -> outcome (tvalue num) :=
  decode_image png_parse [0; 1; 3; 4]%Z.

Definition decode_jpeg {codec : ImageCodec} : tvalue num -> Z -> outcome (tvalue num) :=
  decode_image jpeg_parse [0; 1; 3]%Z.

End Values.
End nd.

(* ================================================================== *)
(** ** Names of operations *)

(** TensorFlow keeps the names of a graph apart without regard to case. *)
Definition lower_ascii (c : ascii) : ascii :=
  let n := nat_of_ascii c in
  if (65 <=? n) && (n <=? 90) then ascii_of_nat (n + 32) else c.

Fixpoint lower (s : string) : string :=
  match s with
  | EmptyString => EmptyString
  | String c r => String (lower_ascii c) (lower r)
  end.

Definition is_alnum (c : ascii) : bool :=
  let n := nat_of_ascii c in
  ((48 <=? n) && (n <=? 57)) || ((65 <=? n) && (n <=? 90)) || ((97 <=? n) && (n <=? 122)).

(** The characters of [A-Za-z0-9.] and of [A-Za-z0-9_.\-/]. *)
Definition valid_first (c : ascii) : bool := is_alnum c || Ascii.eqb c ".".

Definition valid_rest (c : ascii) : bool :=
  valid_first c || Ascii.eqb c "_" || Ascii.eqb c "-" || Ascii.eqb c "/".

Fixpoint string_forallb (p : ascii -> bool) (s : string) : bool :=
  match s with
  | EmptyString => true
  | String c r => p c && string_forallb p r
  end.

(** A name the graph takes for an operation or a scope at its root: it
    matches [^[A-Za-z0-9.][A-Za-z0-9_.\-/]*$]. *)
Definition valid_op_name (s : string) : bool :=
  match s with
  | EmptyString => false
  | String c r => valid_first c && string_forallb valid_rest r
  end.

Definition is_slash (c : ascii) : bool := Ascii.eqb c "/".

(** A valid name that names no scope: it holds no ["/"]. *)
Definition simple_name (s : string) : bool :=
  valid_op_name s && string_forallb (fun c => negb (is_slash c)) s.

Fixpoint ends_with_slash (s : string) : bool :=
  match s with
  | EmptyString => false
  | String c EmptyString => is_slash c
  | String _ r => ends_with_slash r
  end.

Fixpoint drop_last (s : string) : string :=
  match s with
  | EmptyString => EmptyString
  | String _ EmptyString => EmptyString
  | String c r => String c (drop_last r)
  end.

(** An operation named [m] keeps the name [n] from being given again: [n]
    is [m], or a scope [m] lies in, whatever the case of the letters. *)
Definition uses (n m : string) : bool :=
  String.eqb (lower n) (lower m) || String.prefix (lower n ++ "/") (lower m).

(** [name_i] *)
Definition numbered (name : string) (i : nat) : string :=
  (name ++ "_" ++ NilEmpty.string_of_uint (Nat.to_uint i))%string.

(* ================================================================== *)
(** ** The default graph *)

(** A tensor handle: the index of the producing node, counted from the
    oldest node of the graph. *)
Definition tensor : Type := nat.

(** What is known of a tensor before any run: whether it holds strings or
    numbers of a dtype. *)
Inductive kind : Type := KString | KNumeric (dt : dtype).

Section Graph.
Context {num : Type}.

(** The operations the cells add to the graph.  The constant that carries
    an argument of [tf.reshape] or [tf.expand_dims] (the target shape, the
    axis) is kept inside the operation. *)
Inductive op : Type :=
| OpValue (v : tvalue num)               (* a tensor of the surrounding graph whose shape is known
                                            before the run (a constant, a placeholder declared
                                            with its full shape), with its value in the run *)
| OpPlaceholder (v : tvalue num)         (* a tensor of the surrounding graph of whose shape
                                            nothing is known before the run, with its value in
                                            the run *)
| OpAdd (x y : tensor)                   (* x + y *)
| OpIdentity (x : tensor)                (* tf.identity *)
| OpCast (x : tensor) (dt : dtype)       (* tf.cast / tf.to_float *)
| OpReshape (x : tensor) (sh : list Z)   (* tf.reshape *)
| OpExpandDims (x : tensor) (axis : Z)   (* tf.expand_dims *)
| OpDecodePng (x : tensor) (channels : Z)
| OpDecodeJpeg (x : tensor) (channels : Z).

(** A node: the name of the operation and the operation.  The name is kept
    for the operations that are given one by the caller or whose generated
    name the cells' behaviour depends on; [None] stands for a generated
    name that is not tracked ([Reshape], [ToFloat], ...). *)
Record node : Type := {
  node_name : option string;
  node_op : op
}.

(** Newest node first; the node at the head of [n :: g] has handle [length g]. *)
Definition graph : Type := list node.

(** The effects of calls that leave the interpreter. *)
Inductive event : Type :=
| EvModelPreprocess
| EvModelPredict
| EvModelPostprocess
| EvSessionRun
| EvLoadLabelmap (path : string)
| EvDrawBoxes
| EvSaveImage (path : string).

(** Interpreter state: the default graph, the dictionaries of tensors living
    on the heap (a dictionary reference is an index), and the log of calls
    made outside the interpreter. *)
Record world : Type := {
  w_graph : graph;
  w_heap : list (PyDict.t tensor);
  w_log : list event
}.

Definition set_graph (w : world) (g : graph) : world :=
  {| w_graph := g; w_heap := w_heap w; w_log := w_log w |}.

Definition add_log (ev : event) : Py world unit :=
  modify (fun w => {| w_graph := w_graph w; w_heap := w_heap w; w_log := w_log w ++ [ev] |}).

(** The dictionary behind a reference. *)
Definition heap_get (r : nat) : Py world (PyDict.t tensor) :=
  (h <- gets w_heap ;; from_option (nth_error h r) DanglingReference)%py.

(** Adds a node and returns the handle of its output. *)
Definition add_node (name : option string) (o : op) : Py world tensor :=
  fun w =>
    (Ret (length (w_graph w)),
     set_graph w ({| node_name := name; node_op := o |} :: w_graph w)).

Definition outcome_bind {A B} (r : outcome A) (k : A -> outcome B) : outcome B :=
  match r with
  | Ret a => k a
  | Raise e => Raise e
  end.

(** A statement that only adds nodes to the graph, whether it returns or
    raises: the nodes that were there stay, in place, and the heap and the
    log are left alone. *)
Definition extends_graph {A} (m : Py world A) : Prop :=
  forall w, exists added, state_of (m w) = set_graph w (added ++ w_graph w).

(** *** What the graph knows before a run *)

Definition kind_of (v : tvalue num) : kind :=
  match v with
  | VString _ _ => KString
  | VNumeric dt _ _ => KNumeric dt
  end.

Definition static_op_kind (o : op) (input : tensor -> option kind) : option kind :=
  match o with
  | OpValue v | OpPlaceholder v => Some (kind_of v)
  | OpAdd x _ | OpIdentity x | OpReshape x _ | OpExpandDims x _ => input x
  | OpCast _ dt => Some (KNumeric dt)
  | OpDecodePng _ _ | OpDecodeJpeg _ _ => Some (KNumeric DT_UINT8)
  end.

(** The dtype of a tensor, as far as strings and numbers go; [None] for a
    handle that is no tensor of the graph. *)
Fixpoint static_kind (g : graph) (x : tensor) : option kind :=
  match g with
  | [] => None
  | n :: g' => if x =? length g' then static_op_kind (node_op n) (static_kind g') else static_kind g' x
  end.

Definition wildcard (d : Z) : bool := (d =? -1)%Z.

(** The shape of a reshaped tensor when it is known before the run. *)
Definition static_reshape (input : option (list Z)) (target : list Z) : option (list Z) :=
  match filter wildcard target with
  | [] => Some target
  | [_] =>
      match input with
      | Some sh => nd.reshape_shape (nd.num_elements sh) target
      | None => None
      end
  | _ => None
  end.

Definition static_op_shape (o : op) (input : tensor -> option (list Z)) : option (list Z) :=
  match o with
  | OpValue v => Some (nd.shape v)
  | OpPlaceholder _ => None
  | OpAdd x _ | OpIdentity x | OpCast x _ => input x
  | OpReshape x sh => static_reshape (input x) sh
  | OpExpandDims x axis =>
      match input x with
      | Some sh => nd.expand_shape sh axis
      | None => None
      end
  | OpDecodePng _ _ | OpDecodeJpeg _ _ => None    (* the size of the picture is in the bytes *)
  end.

(** The shape of a tensor when the graph knows all of it before the run;
    [None] when some of it is only known in the run. *)
Fixpoint static_shape (g : graph) (x : tensor) : option (list Z) :=
  match g with
  | [] => None
  | n :: g' =>
      if x =? length g' then static_op_shape (node_op n) (static_shape g') else static_shape g' x
  end.

(** *** Names in use *)

(** Whether a name is taken in the graph.  Names in use are read off the
    named operations of the graph: the names of the operations and of the
    scopes they lie in.  The generated names of the unnamed nodes are not
    among them, so what is stated about names is stated for a graph whose
    operations all have their name on record. *)
Definition name_in_use (g : graph) (n : string) : bool :=
  existsb (fun nd => match node_name nd with
                     | Some m => uses n m
                     | None => false
                     end) g.

(** Whether an operation of the graph has exactly this name. *)
Definition has_node_named (g : graph) (n : string) : bool :=
  existsb (fun nd => match node_name nd with
                     | Some m => String.eqb n m
                     | None => false
                     end) g.

Fixpoint first_free (g : graph) (name : string) (i fuel : nat) : string :=
  match fuel with
  | O => numbered name i
  | S fuel' =>
      if name_in_use g (numbered name i) then first_free g name (S i) fuel'
      else numbered name i
  end.

(** An upper bound on the number of names in use. *)
Definition names_bound (g : graph) : nat :=
  fold_right (fun nd acc => match node_name nd with
                            | Some m => S (String.length m) + acc
                            | None => acc
                            end) 0 g.

(** [Graph.unique_name]: the name itself when it is free, otherwise the
    first free one of [name_1], [name_2], ...  (TensorFlow counts the
    requests for a name; the two agree when the numbered names were given
    out in that order.) *)
Definition unique_name (g : graph) (name : string) : string :=
  if name_in_use g name then first_free g name 1 (names_bound g) else name.

(** The tensors of the graph produced by an operation of the given name,
    newest first: what [get_tensor_by_name] can reach under that name. *)
Fixpoint named (g : graph) (name : string) : list tensor :=
  match g with
  | [] => []
  | n :: g' =>
      match node_name n with
      | Some name' =>
          if String.eqb name name' then length g' :: named g' name else named g' name
      | None => named g' name
      end
  end.

(** *** Running the graph *)

Context {NUM : Numeric num} {codec : ImageCodec}.

(** The value of an operation, given the values of the tensors it reads. *)
Definition apply_op (o : op) (input : tensor -> outcome (tvalue num)) : outcome (tvalue num) :=
  match o with
  | OpValue v | OpPlaceholder v => Ret v
  | OpAdd x y => outcome_bind (input x) (fun a => outcome_bind (input y) (fun b => nd.add a b))
  | OpIdentity x => input x
  | OpCast x dt => outcome_bind (input x) (fun v => nd.cast v dt)
  | OpReshape x sh => outcome_bind (input x) (fun v => nd.reshape v sh)
  | OpExpandDims x axis => outcome_bind (input x) (fun v => nd.expand_dims v axis)
  | OpDecodePng x c => outcome_bind (input x) (fun v => nd.decode_png v c)
  | OpDecodeJpeg x c => outcome_bind (input x) (fun v => nd.decode_jpeg v c)
  end.

(** The value a tensor takes when the graph is run.  A node reads older
    nodes only. *)
Fixpoint eval (g : graph) (x : tensor) : outcome (tvalue num) :=
  match g with
  | [] => Raise DanglingReference
  | n :: g' => if x =? length g' then apply_op (node_op n) (eval g') else eval g' x
  end.

End Graph.
Arguments op num : clear implicits.
Arguments node num : clear implicits.
Arguments graph num : clear implicits.
Arguments world num : clear implicits.

(** The TensorFlow calls of the cells, as graph-building statements.  A
    call checks what the graph knows before the run and raises when that
    already rules the operation out; what only the run can tell is left to
    the run.  The cells run at the root of the graph, outside any name
    scope. *)
Module tf.
Section Calls.
Context {num : Type} {NUM : Numeric num}.

(** A Python value handed to a [tf] call where a tensor is expected becomes
    a constant of the graph. *)
Definition constant (v : tvalue num) : Py (world num) tensor := add_node None (OpValue v).

(** Whether shape inference lets a reshape of a tensor of the given known
    shape through: no dimension below [-1]; with every dimension given,
    the same number of elements; with one dimension left open, a number of
    elements that the given dimensions divide. *)
Definition reshape_buildable (input : option (list Z)) (target : list Z) : bool :=
  negb (existsb (fun d => d <? -1)%Z target) &&
  match input, filter wildcard target with
  | Some sh, [] => (nd.num_elements target =? nd.num_elements sh)%Z
  | Some sh, [_] =>
      let known := nd.num_elements (filter (fun d => negb (wildcard d)) target) in
      if (0 <? known)%Z then (nd.num_elements sh mod known =? 0)%Z else true
  | _, _ => true
  end.

Definition reshape (x : tensor) (sh : list Z) : Py (world num) tensor :=
  (g <- gets w_graph ;;
   if reshape_buildable (static_shape g x) sh
   then add_node None (OpReshape x sh)
   else raise ValueError)%py.

Definition expand_dims (x : tensor) (axis : Z) : Py (world num) tensor :=
  (g <- gets w_graph ;;
   match static_shape g x with
   | Some sh =>
       match nd.expand_shape sh axis with
       | Some _ => add_node None (OpExpandDims x axis)
       | None => raise ValueError
       end
   | None => add_node None (OpExpandDims x axis)
   end)%py.

(** [tf.identity(x, name)]: the name opens a scope.  A name that is no
    valid scope name is refused; a name ending in ["/"] is taken as it is,
    without the slash, and refused if an operation has it; otherwise the
    operation gets the name, or the next free numbered one if the name is
    in use. *)
Definition identity (x : tensor) (name : string) : Py (world num) tensor :=
  (g <- gets w_graph ;;
   if valid_op_name name
   then
     if ends_with_slash name
     then
       if has_node_named g (drop_last name) then raise ValueError
       else add_node (Some (drop_last name)) (OpIdentity x)
     else add_node (Some (unique_name g name)) (OpIdentity x)
   else raise ValueError)%py.

Definition to_float (x : tensor) : Py (world num) tensor :=
  add_node None (OpCast x DT_FLOAT).

(** [x + k] for a Python int [k] that the dtype of [x] can hold (the
    notebook's is 1).  [tf.Tensor] has [__add__] and no [__iadd__]:
    [x += k] evaluates [x + k], a new tensor, and rebinds the variable [x].
    The operator opens the scope [add], turns [k] into a constant [add/y]
    of the dtype of [x], which a string tensor refuses, and adds the
    operation [add]. *)
Definition add (x : tensor) (k : Z) : Py (world num) tensor :=
  (g <- gets w_graph ;;
   match static_kind g x with
   | Some (KNumeric dt) =>
       let scope := unique_name g "add" in
       y <- add_node (Some (scope ++ "/y")%string) (OpValue (VNumeric dt [] [num_of_Z dt k])) ;;
       add_node (Some scope) (OpAdd x y)
   | Some KString => raise TypeError
   | None => raise DanglingReference
   end)%py.

(** An image decoder: the contents must be a string tensor, not known to
    be other than a scalar, and the channel count not negative; whether
    the decoder takes the channel count, and the bytes, is for the run. *)
Definition image_decode (o : op num) (contents : tensor) (channels : Z)
  : Py (world num) tensor :=
  (g <- gets w_graph ;;
   match static_kind g contents with
   | Some KString =>
       match static_shape g contents with
       | Some (_ :: _) => raise ValueError
       | _ => if (channels <? 0)%Z then raise ValueError else add_node None o
       end
   | Some (KNumeric _) => raise TypeError
   | None => raise DanglingReference
   end)%py.

Definition image_decode_png (contents : tensor) (channels : Z) : Py (world num) tensor :=
  image_decode (OpDecodePng contents channels) contents channels.

Definition image_decode_jpeg (contents : tensor) (channels : Z) : Py (world num) tensor :=
  image_decode (OpDecodeJpeg contents channels) contents channels.

(** [with tf.Session() as sess: x.eval()] *)
Definition session_eval {codec : ImageCodec} (x : tensor)
  : Py (world num) (tvalue num) :=
  (add_log EvSessionRun ;;
   g <- gets w_graph ;;
   fun w => (eval g x, w))%py.

End Calls.
End tf.

(* ================================================================== *)
(** ** Layer injection *)

(** Values passed as extra positional arguments ([*args]). *)
Inductive pyval : Type :=
| PyNone
| PyBool (b : bool)
| PyInt (n : Z)
| PyFloat (mantissa exponent : Z)
| PyStr (s : string).

Module LayerInjector.

(** The class holds no attribute. *)
Inductive t : Type := instance.

Section Methods.
Context {num : Type} {NUM : Numeric num}.

(** [def bitstring_to_uint8_tensor(self, input_bytes, channels, *args)] *)
Definition bitstring_to_uint8_tensor (self : t) (input_bytes : tensor) (channels : Z)
    (args : list pyval) : Py (world num) tensor :=
  (input_bytes <- tf.reshape input_bytes [] ;;
   (* Transforms bitstring to uint8 tensor *)
   input_tensor <- tf.image_decode_png input_bytes channels ;;
   (* Expands the single tensor into a batch of 1 *)
   input_tensor <- tf.expand_dims input_tensor 0 ;;
   ret input_tensor)%py.

(** The body of the loop of [object_detection_dict_to_tensor_dict]; the
    list [output_node_names] is the loop's mutable local. *)
Definition name_and_collect (LABEL_ID_OFFSET : Z) (item : string * tensor)
    (output_node_names : list string) : Py (world num) (list string) :=
  let '(name, tensor) := item in
  (tensor <- (if String.eqb name "detection_classes"
              then tf.add tensor LABEL_ID_OFFSET
              else ret tensor) ;;
   tensor <- tf.identity tensor name ;;
   ret (output_node_names ++ [name]))%py.

(** [def object_detection_dict_to_tensor_dict(self, object_detection_tensor_dict, *args)];
    the dictionary is passed by reference. *)
Definition object_detection_dict_to_tensor_dict (self : t)
    (object_detection_tensor_dict : nat) (args : list pyval)
  : Py (world num) (list string * bool) :=
  (* Sets output to a non-image *)
  let OUTPUT_AS_IMAGE := false in
  (* Class labels are 1-indexed *)
  let LABEL_ID_OFFSET := 1%Z in
  (* Assigns names to tensors and adds them to output list *)
  (d <- heap_get object_detection_tensor_dict ;;
   output_node_names <- py_for (PyDict.items d) (name_and_collect LABEL_ID_OFFSET) [] ;;
   (* Returns output list and image boolean *)
   ret (output_node_names, OUTPUT_AS_IMAGE))%py.

End Methods.
End LayerInjector.

(** *** The mappings the postprocessing call is written for *)

Section OutputStructures.
Context {num : Type}.

(** Every key can name an operation, and names no scope. *)
Definition keys_are_names (d : PyDict.t tensor) : bool :=
  forallb simple_name (PyDict.keys d).

(** The entry "detection_classes", if there is one, is a numeric tensor of
    the graph. *)
Definition classes_numeric (g : graph num) (d : PyDict.t tensor) : bool :=
  match PyDict.get d "detection_classes" with
  | Some t =>
      match static_kind g t with
      | Some (KNumeric _) => true
      | _ => false
      end
  | None => true
  end.



End OutputStructures.
(* ================================================================== *)
(** ** The inference function of [example_usage()] *)

Module ServerBuilder.
Section ExampleUsage.
Context {num : Type}.

(** What a method of the detection model can reach: the default graph and
    the dictionaries it builds. *)
Definition model_state : Type := (graph num * list (PyDict.t tensor))%type.

(** The model built by [model_builder.build]: the three methods the closure
    calls.  Each extends the graph and may raise; dictionaries are passed by
    reference. *)
Record DetectionModel : Type := {
  preprocess : tensor -> Py model_state (tensor * tensor);
  predict : tensor -> tensor -> Py model_state nat;
  postprocess : nat -> tensor -> Py model_state nat
}.

(** A call into the model: logged, then run on the graph and the heap. *)
Definition call_model {A} (ev : event) (m : Py model_state A) : Py (world num) A :=
  (add_log ev ;;
   fun w =>
     let '(r, (g, h)) := m (w_graph w, w_heap w) in
     (r, {| w_graph := g; w_heap := h; w_log := w_log w |}))%py.

(** [def object_detection_inference(input_tensors)], a closure over
    [detection_model]. *)
Definition object_detection_inference (detection_model : DetectionModel)
    (input_tensors : tensor) : Py (world num) nat :=
  (* Converts uint8 inputs to float tensors *)
  (inputs <- tf.to_float input_tensors ;;
   (* Object detection preprocessing *)
   '(preprocessed_inputs, true_image_shapes) <-
      call_model EvModelPreprocess (preprocess detection_model inputs) ;;
   (* Object detection inference *)
   output_tensors <-
      call_model EvModelPredict
        (predict detection_model preprocessed_inputs true_image_shapes) ;;
   (* Object detection postprocessing *)
   postprocessed_tensors <-
      call_model EvModelPostprocess
        (postprocess detection_model output_tensors true_image_shapes) ;;
   ret postprocessed_tensors)%py.

End ExampleUsage.
Arguments DetectionModel num : clear implicits.
End ServerBuilder.

(* ================================================================== *)
(** ** The object detection client *)

Module ObjectDetectionClient.

(** The attributes of the client the cells read. *)
Record t : Type := {
  image_size : Z;
  label_path : string;
  output_dir : string;
  output_filename : string;
  output_extension : string
}.

(** The library calls of the client cells: numpy, and the Object Detection
    API's [label_map_util] and [visualization_utils]. *)
Record Utils (num : Type) : Type := {
  json : Type;                       (* a decoded JSON value of the response *)
  label_map : Type;
  categories : Type;
  category_index : Type;
  np_asarray : json -> dtype -> outcome (tvalue num);
  load_labelmap : string -> outcome label_map;
  convert_label_map_to_categories : label_map -> Z -> bool -> categories;
  create_category_index : categories -> category_index;
  (* draws on the image array in place: the array after the call; the
     arguments are image, boxes, classes, scores, category_index,
     instance_masks, use_normalized_coordinates, line_thickness *)
  visualize_boxes_and_labels_on_image_array :
    tvalue num -> tvalue num -> tvalue num -> tvalue num -> category_index ->
    option (tvalue num) -> bool -> Z -> outcome (tvalue num);
  save_image_array_as_png : tvalue num -> string -> outcome unit
}.
Arguments json {num} _.
Arguments label_map {num} _.
Arguments categories {num} _.
Arguments category_index {num} _.
Arguments np_asarray {num} _ _ _.
Arguments load_labelmap {num} _ _.
Arguments convert_label_map_to_categories {num} _ _ _ _.
Arguments create_category_index {num} _ _.
Arguments visualize_boxes_and_labels_on_image_array {num} _ _ _ _ _ _ _ _ _.
Arguments save_image_array_as_png {num} _ _ _.

Section Methods.
Context {num : Type} {NUM : Numeric num} {codec : ImageCodec} (utils : Utils num).

(** The outcome of a library call, in the interpreter. *)
Definition lift {A} (r : outcome A) : Py (world num) A := fun w => (r, w).

(** [d[k]] *)
Definition getitem {V} (d : PyDict.t V) (k : string) : Py (world num) V :=
  from_option (PyDict.get d k) (KeyError k).

(** [str(i)] *)
Definition str (i : Z) : string := NilZero.string_of_int (Z.to_int i).

(** The path [visualize] saves image number [i] to: its local
    [output_file]. *)
Definition output_file (self : t) (i : Z) : string :=
  (output_dir self ++ "/images/" ++ output_filename self ++ str i
     ++ output_extension self)%string.

(** [def bitstring_to_uint8_tensor(self, input_bytes)]; the bytes object
    becomes a scalar string constant when it reaches [tf.reshape]. *)
Definition bitstring_to_uint8_tensor (self : t) (input_bytes : string)
  : Py (world num) tensor :=
  (input_bytes <- tf.constant (VString [] [input_bytes]) ;;
   input_bytes <- tf.reshape input_bytes [] ;;
   (* Transforms bitstring to uint8 tensor *)
   input_tensor <- tf.image_decode_jpeg input_bytes 3 ;;
   (* Ensures tensor has correct shape *)
   input_tensor <- tf.reshape input_tensor [image_size self; image_size self; 3%Z] ;;
   ret input_tensor)%py.

(** [def get_category_index(self)] *)
Definition get_category_index (self : t) : Py (world num) (category_index utils) :=
  (* Loads label map *)
  (add_log (EvLoadLabelmap (label_path self)) ;;
   label_map <- lift (load_labelmap utils (label_path self)) ;;
   (* Builds category index from label map *)
   let categories := convert_label_map_to_categories utils label_map 1%Z true in
   let category_index := create_category_index utils categories in
   ret category_index)%py.

(** [def visualize(self, input_image, response, i)]; the arguments of the
    drawing call are evaluated left to right. *)
Definition visualize (self : t) (input_image : string) (response : PyDict.t (json utils))
    (i : Z) : Py (world num) unit :=
  (* Processes response for visualization *)
  (detection_boxes <- getitem response "detection_boxes" ;;
   detection_classes <- getitem response "detection_classes" ;;
   detection_scores <- getitem response "detection_scores" ;;
   image <- bitstring_to_uint8_tensor self input_image ;;
   image <- tf.session_eval image ;;
   (* Overlays bounding boxes and labels on image *)
   boxes <- lift (np_asarray utils detection_boxes DT_FLOAT) ;;
   classes <- lift (np_asarray utils detection_classes DT_UINT8) ;;
   scores <- lift (np_asarray utils detection_scores DT_FLOAT) ;;
   category_index <- get_category_index self ;;
   add_log EvDrawBoxes ;;
   image <- lift (visualize_boxes_and_labels_on_image_array utils
                    image boxes classes scores category_index None true 2%Z) ;;
   (* Saves image *)
   let output_file :=
     (output_dir self ++ "/images/" ++ output_filename self ++ str i
        ++ output_extension self)%string in
   add_log (EvSaveImage output_file) ;;
   lift (save_image_array_as_png utils image output_file))%py.

(** One call of [visualize] as the inherited driver makes it: the image
    bytes, the decoded response and the index of the image. *)
Definition visualize_call : Type := (string * PyDict.t (json utils) * Z)%type.

(** The visualization calls of a client instance over its lifetime, in
    order; an uncaught exception ends the run. *)
Definition lifetime (self : t) (calls : list visualize_call) : Py (world num) unit :=
  py_for calls (fun '(input_image, response, i) _ => visualize self input_image response i) tt.

End Methods.

(** Number of label map loads recorded in a log. *)
Fixpoint count_loads (log : list event) : nat :=
  match log with
  | [] => 0
  | EvLoadLabelmap _ :: rest => S (count_loads rest)
  | _ :: rest => count_loads rest
  end.

(** A block that adds [n] label map loads to the log when it returns, and at
    most [n] when it raises. *)
Definition adds_loads {num A} (n : nat) (m : Py (world num) A) : Prop :=
  forall w,
    count_loads (w_log (state_of (m w))) <= count_loads (w_log w) + n /\
    (forall a, result_of (m w) = Ret a ->
               count_loads (w_log (state_of (m w))) = count_loads (w_log w) + n).

(** A block whose calls outside the interpreter are the events [evs], in
    that order: all of them when it returns, the first few when it raises. *)
Definition logs_within {num A} (evs : list event) (m : Py (world num) A) : Prop :=
  forall w,
    (exists n, w_log (state_of (m w)) = w_log w ++ firstn n evs) /\
    (forall a, result_of (m w) = Ret a -> w_log (state_of (m w)) = w_log w ++ evs).

End ObjectDetectionClient.

(* ================================================================== *)
(** ** Concrete instances, for running the model *)

(** Two's complement wrap-around at a width. *)
Definition wrap_signed (bits z : Z) : Z :=
  ((z + 2 ^ (bits - 1)) mod 2 ^ bits - 2 ^ (bits - 1))%Z.

(** float32 on the integers it holds: [2 ^ 128] and its opposite stand for
    the two infinities, [2 ^ 128 + 1] for not-a-number. *)
Definition float_inf : Z := (2 ^ 128)%Z.
Definition float_nan : Z := (2 ^ 128 + 1)%Z.

(** The nearest float32 of an integer: 24 significant bits, ties to the
    even neighbour, infinity beyond the largest finite value. *)
Definition round_float32 (z : Z) : Z :=
  let a := Z.abs z in
  if (a <? 2 ^ 24)%Z then z
  else
    let e := (Z.log2 a - 23)%Z in
    let q := (a / 2 ^ e)%Z in
    let r := (a mod 2 ^ e)%Z in
    let half := (2 ^ (e - 1))%Z in
    let q' := if (half <? r)%Z || ((r =? half)%Z && Z.odd q) then (q + 1)%Z else q in
    let m := (q' * 2 ^ e)%Z in
    (Z.sgn z * (if float_inf <=? m then float_inf else m))%Z.

Definition float_add (x y : Z) : Z :=
  if ((x =? float_nan) || (y =? float_nan))%Z then float_nan
  else if (Z.abs x =? float_inf)%Z then (if (y =? - x)%Z then float_nan else x)
  else if (Z.abs y =? float_inf)%Z then y
  else round_float32 (x + y).

(** Elements as integers: uint8, int32 and int64 with their wrap-around,
    float32 on its integer values with its rounding.  [num_of_Z] is for
    constants the dtype holds.  A cast to an integer dtype wraps, which is
    what TensorFlow does between integer dtypes. *)
Definition Z_numeric : Numeric Z := {|
  num_of_Z := fun _ k => k;
  num_add := fun dt x y =>
    match dt with
    | DT_UINT8 => ((x + y) mod 256)%Z
    | DT_INT32 => wrap_signed 32 (x + y)
    | DT_INT64 => wrap_signed 64 (x + y)
    | DT_FLOAT => float_add x y
    end;
  num_cast := fun src dst x =>
    match dst, src with
    | DT_FLOAT, DT_FLOAT => x
    | DT_FLOAT, _ => round_float32 x
    | DT_UINT8, _ => (x mod 256)%Z
    | DT_INT32, _ => wrap_signed 32 x
    | DT_INT64, _ => wrap_signed 64 x
    end
|}.

(** A picture of the given size whose colour samples are all zero; asked
    for an alpha channel the file does not have, the decoder fills it with
    255. *)
Definition blank_image (h w c : nat) : image := {|
  img_height := h;
  img_width := w;
  img_channels := c;
  img_samples := fun c' =>
    if ((c' =? 4)%Z && (c <? 4))%bool
    then concat (repeat [0; 0; 0; 255]%Z (h * w))
    else repeat 0%Z (h * w * Z.to_nat c')
|}.

(** A codec that knows four files by name. *)
Definition toy_codec : ImageCodec := {|
  png_parse := fun s =>
    if String.eqb s "rgb-2x3.png" then Some (blank_image 2 3 3)
    else if String.eqb s "gray-5x4.png" then Some (blank_image 5 4 1)
    else None;
  jpeg_parse := fun s =>
    if String.eqb s "square-4x4.jpg" then Some (blank_image 4 4 3)
    else if String.eqb s "wide-2x8.jpg" then Some (blank_image 2 8 3)
    else None
|}.

Definition empty_world : world Z := {| w_graph := []; w_heap := []; w_log := [] |}.

(** A graph holding the three outputs of a detector for two detections, and
    the dictionary naming them. *)
Definition detector_graph : graph Z := [
  {| node_name := Some "classes";
     node_op := OpPlaceholder (VNumeric DT_FLOAT [1; 2]%Z [0; 4]%Z) |};
  {| node_name := Some "scores";
     node_op := OpPlaceholder (VNumeric DT_FLOAT [1; 2]%Z [9; 7]%Z) |};
  {| node_name := Some "boxes";
     node_op := OpPlaceholder (VNumeric DT_FLOAT [1; 2; 4]%Z [0; 0; 1; 1; 2; 2; 3; 3]%Z) |}
].

Definition detector_dict : PyDict.t tensor :=
  PyDict.mk [("detection_boxes", 0); ("detection_scores", 1); ("detection_classes", 2)]
    eq_refl.

Definition detector_world : world Z :=
  {| w_graph := detector_graph; w_heap := [detector_dict]; w_log := [] |}.

(** A detector whose class output already has the name the export asks
    for. *)
Definition named_detector_world : world Z :=
  {| w_graph := [ {| node_name := Some "detection_classes";
                     node_op := OpPlaceholder (VNumeric DT_INT64 [1; 2]%Z [0; 4]%Z) |} ];
     w_heap := [PyDict.mk [("detection_classes", 0)] eq_refl];
     w_log := [] |}.

(** A dictionary whose class ids are a string tensor, and one with a key
    that is no operation name (it holds a space). *)
Definition label_detector_world : world Z :=
  {| w_graph := [ {| node_name := Some "labels";
                     node_op := OpPlaceholder (VString [2%Z] ["cat"; "dog"]) |};
                  {| node_name := Some "scores";
                     node_op := OpPlaceholder (VNumeric DT_FLOAT [2%Z] [9; 7]%Z) |} ];
     w_heap := [PyDict.mk [("detection_scores", 0); ("detection_classes", 1)] eq_refl;
                PyDict.mk [("detection_scores", 0); ("detection scores", 0)] eq_refl];
     w_log := [] |}.

(** A graph holding one encoded picture as a string tensor of shape [1]. *)
Definition png_world : world Z :=
  {| w_graph := [ {| node_name := None; node_op := OpValue (VString [1%Z] ["rgb-2x3.png"]) |} ];
     w_heap := [];
     w_log := [] |}.

(** A graph holding a batch of one uint8 picture of a single pixel. *)
Definition pixel_world : world Z :=
  {| w_graph := [ {| node_name := None;
                     node_op := OpValue (VNumeric DT_UINT8 [1; 1; 1; 3]%Z [10; 20; 30]%Z) |} ];
     w_heap := [];
     w_log := [] |}.

(** A stand-in detection model: it adds one node per stage and returns the
    dictionary of its single output. *)
Definition toy_model : ServerBuilder.DetectionModel Z := {|
  ServerBuilder.preprocess := fun x st =>
    let '(g, h) := st in
    (Ret (length g, x), ({| node_name := None; node_op := OpIdentity x |} :: g, h));
  ServerBuilder.predict := fun x _ st =>
    let '(g, h) := st in
    (Ret (length h),
     ({| node_name := None; node_op := OpIdentity x |} :: g,
      h ++ [PyDict.mk [("prediction", length g)] eq_refl]));
  ServerBuilder.postprocess := fun r _ st =>
    let '(g, h) := st in
    match nth_error h r with
    | Some d =>
        match PyDict.get d "prediction" with
        | Some x =>
            (Ret (length h),
             ({| node_name := None; node_op := OpIdentity x |} :: g,
              h ++ [PyDict.mk [("detection_classes", length g)] eq_refl]))
        | None => (Raise (KeyError "prediction"), st)
        end
    | None => (Raise DanglingReference, st)
    end
|}.

(** Stand-ins for numpy and the Object Detection API utilities. *)
Definition toy_utils : ObjectDetectionClient.Utils Z := {|
  ObjectDetectionClient.json := list Z;
  ObjectDetectionClient.label_map := string;
  ObjectDetectionClient.categories := list string;
  ObjectDetectionClient.category_index := list (Z * string);
  ObjectDetectionClient.np_asarray := fun l dt =>
    Ret (VNumeric dt [Z.of_nat (length l)] l);
  ObjectDetectionClient.load_labelmap := fun path =>
    if String.eqb path "labels.pbtxt" then Ret "person" else Raise (NotFoundError path);
  ObjectDetectionClient.convert_label_map_to_categories := fun m _ _ => [m];
  ObjectDetectionClient.create_category_index := fun cs => map (fun c => (1%Z, c)) cs;
  ObjectDetectionClient.visualize_boxes_and_labels_on_image_array :=
    fun image _ _ _ _ _ _ _ => Ret image;
  ObjectDetectionClient.save_image_array_as_png := fun _ _ => Ret tt
|}.

Definition toy_client : ObjectDetectionClient.t := {|
  ObjectDetectionClient.image_size := 4%Z;
  ObjectDetectionClient.label_path := "labels.pbtxt";
  ObjectDetectionClient.output_dir := "out";
  ObjectDetectionClient.output_filename := "output";
  ObjectDetectionClient.output_extension := ".png"
|}.

(** The same client, configured for pictures of another size. *)
Definition client_of_size (s : Z) : ObjectDetectionClient.t := {|
  ObjectDetectionClient.image_size := s;
  ObjectDetectionClient.label_path := "labels.pbtxt";
  ObjectDetectionClient.output_dir := "out";
  ObjectDetectionClient.output_filename := "output";
  ObjectDetectionClient.output_extension := ".png"
|}.

Definition toy_response : PyDict.t (list Z) :=
  PyDict.mk [("detection_boxes", [0; 0; 1; 1]%Z);
             ("detection_classes", [1]%Z);
             ("detection_scores", [9]%Z)] eq_refl.

(** A graph holding a string tensor of two encoded pictures, declared with
    its shape. *)
Definition two_png_world : world Z :=
  {| w_graph := [ {| node_name := None;
                     node_op := OpValue (VString [2%Z] ["rgb-2x3.png"; "gray-5x4.png"]) |} ];
     w_heap := [];
     w_log := [] |}.

(** The same two pictures fed to a placeholder declared without a shape. *)
Definition two_png_fed_world : world Z :=
  {| w_graph := [ {| node_name := None;
                     node_op := OpPlaceholder
                                  (VString [2%Z] ["rgb-2x3.png"; "gray-5x4.png"]) |} ];
     w_heap := [];
     w_log := [] |}.

(** A detection model whose [predict] raises. *)
Definition failing_model : ServerBuilder.DetectionModel Z := {|
  ServerBuilder.preprocess := ServerBuilder.preprocess toy_model;
  ServerBuilder.predict := fun _ _ st => (Raise ValueError, st);
  ServerBuilder.postprocess := ServerBuilder.postprocess toy_model
|}.

(* ================================================================== *)
(** * Properties *)

(* ================================================================== *)
(** * Properties *)

(** ** Dictionaries *)

Lemma PyDict_mem_In k ks : PyDict.mem k ks = true <-> In k ks.
Proof.
  induction ks as [|k' ks IH]; simpl.
  - split; [discriminate | tauto].
  - destruct (String.eqb_spec k k') as [->|Hne].
    + split; auto.
    + rewrite IH. split; [auto | intros [E|H]; [congruence | exact H]].
Qed.

Lemma PyDict_nodupb_NoDup ks : PyDict.nodupb ks = true <-> NoDup ks.
Proof.
  induction ks as [|k ks IH]; simpl.
  - split; [constructor | reflexivity].
  - rewrite andb_true_iff, negb_true_iff, IH. split.
    + intros [Hm Hn]. constructor; [|exact Hn].
      intro Hin. apply PyDict_mem_In in Hin. congruence.
    + intro H. inversion H as [|? ? Hnotin Hnd]; subst. split; [|exact Hnd].
      destruct (PyDict.mem k ks) eqn:E; [|reflexivity].
      apply PyDict_mem_In in E. contradiction.
Qed.

Lemma PyDict_keys_NoDup {V} (d : PyDict.t V) : NoDup (PyDict.keys d).
Proof. apply PyDict_nodupb_NoDup, PyDict.entries_nodup. Qed.

Lemma PyDict_assoc_In {V} k (v : V) l : PyDict.assoc k l = Some v -> In (k, v) l.
Proof.
  induction l as [|[k' v'] l IH]; simpl; [discriminate|].
  destruct (String.eqb_spec k k') as [->|Hne].
  - intros [= ->]. now left.
  - intros H. right. auto.
Qed.

Lemma PyDict_get_In {V} (d : PyDict.t V) k v :
  PyDict.get d k = Some v -> In (k, v) (PyDict.items d).
Proof. apply PyDict_assoc_In. Qed.

Lemma PyDict_get_None_notin {V} (d : PyDict.t V) k :
  PyDict.get d k = None <-> ~ In k (PyDict.keys d).
Proof.
  unfold PyDict.get, PyDict.keys, PyDict.keys_of.
  induction (PyDict.entries d) as [|[k' v'] l IH]; simpl.
  - tauto.
  - destruct (String.eqb_spec k k') as [->|Hne].
    + split; [discriminate | intros H; exfalso; apply H; now left].
    + rewrite IH. split; [intros H [E|Hin]; [congruence | auto] | tauto].
Qed.

Lemma PyDict_mem_get {V} (d : PyDict.t V) k :
  PyDict.mem k (PyDict.keys d) = true -> exists v, PyDict.get d k = Some v.
Proof.
  intros H. destruct (PyDict.get d k) as [v|] eqn:E; [now exists v|].
  apply PyDict_get_None_notin in E. apply PyDict_mem_In in H. contradiction.
Qed.

Lemma PyDict_not_mem_get {V} (d : PyDict.t V) k :
  PyDict.mem k (PyDict.keys d) = false -> PyDict.get d k = None.
Proof.
  intros H. apply PyDict_get_None_notin. intros Hin.
  apply PyDict_mem_In in Hin. congruence.
Qed.

(** ** Statements in sequence *)

(** A statement that returns hands its value to the rest of the block. *)
Lemma bind_Ret {W A B} (m : Py W A) (k : A -> Py W B) w a w' :
  m w = (Ret a, w') -> bind m k w = k a w'.
Proof. intros H. unfold bind. now rewrite H. Qed.

Lemma bind_Raise {W A B} (m : Py W A) (k : A -> Py W B) w e w' :
  m w = (Raise e, w') -> bind m k w = (Raise e, w').
Proof. intros H. unfold bind. now rewrite H. Qed.

(** ** The graph is append-only *)

Section GraphFacts.
Context {num : Type} {NUM : Numeric num} {codec : ImageCodec}.

Lemma set_graph_same (w : world num) : set_graph w (w_graph w) = w.
Proof. destruct w; reflexivity. Qed.

Lemma eval_cons_old (n : node num) g x :
  x < length g -> eval (n :: g) x = eval g x.
Proof.
  intros Hlt. simpl. destruct (Nat.eqb_spec x (length g)); [lia | reflexivity].
Qed.

Lemma eval_cons_new (n : node num) g :
  eval (n :: g) (length g) = apply_op (node_op n) (eval g).
Proof. simpl. now rewrite Nat.eqb_refl. Qed.

Lemma eval_cons_at (n : node num) g x :
  x = length g -> eval (n :: g) x = apply_op (node_op n) (eval g).
Proof. intros ->. apply eval_cons_new. Qed.


(** Nodes added later do not change what an older node evaluates to. *)
Lemma eval_app_old (added g : graph num) x :
  x < length g -> eval (added ++ g) x = eval g x.
Proof.
  intros Hlt. induction added as [|n added IH]; [reflexivity|].
  cbn [app]. rewrite eval_cons_old; [exact IH|]. rewrite length_app. lia.
Qed.

Lemma static_kind_cons_old (n : node num) g x :
  x < length g -> static_kind (n :: g) x = static_kind g x.
Proof.
  intros Hlt. simpl. destruct (Nat.eqb_spec x (length g)); [lia | reflexivity].
Qed.

Lemma static_kind_cons_new (n : node num) g :
  static_kind (n :: g) (length g) = static_op_kind (node_op n) (static_kind g).
Proof. simpl. now rewrite Nat.eqb_refl. Qed.

Lemma static_kind_cons_at (n : node num) g x :
  x = length g -> static_kind (n :: g) x = static_op_kind (node_op n) (static_kind g).
Proof. intros ->. apply static_kind_cons_new. Qed.

Lemma static_kind_lt (g : graph num) x k : static_kind g x = Some k -> x < length g.
Proof.
  induction g as [|n g IH]; simpl; [discriminate|].
  destruct (Nat.eqb_spec x (length g)) as [->|Hne]; [lia|].
  intros H. apply IH in H. lia.
Qed.

Lemma static_kind_app_old (added g : graph num) x :
  x < length g -> static_kind (added ++ g) x = static_kind g x.
Proof.
  intros Hlt. induction added as [|n added IH]; [reflexivity|].
  cbn [app]. rewrite static_kind_cons_old; [exact IH|]. rewrite length_app. lia.
Qed.

Lemma static_shape_cons_old (n : node num) g x :
  x < length g -> static_shape (n :: g) x = static_shape g x.
Proof.
  intros Hlt. simpl. destruct (Nat.eqb_spec x (length g)); [lia | reflexivity].
Qed.

Lemma static_shape_cons_new (n : node num) g :
  static_shape (n :: g) (length g) = static_op_shape (node_op n) (static_shape g).
Proof. simpl. now rewrite Nat.eqb_refl. Qed.

Lemma static_shape_cons_at (n : node num) g x :
  x = length g -> static_shape (n :: g) x = static_op_shape (node_op n) (static_shape g).
Proof. intros ->. apply static_shape_cons_new. Qed.

(** What the graph knows of the dtype before a run is what the run gives. *)
Lemma static_kind_sound (g : graph num) : forall x v,
  eval g x = Ret v -> static_kind g x = Some (kind_of v).
Proof.
  induction g as [|n g IH]; intros x v; simpl; [discriminate|].
  destruct (Nat.eqb_spec x (length g)) as [->|Hne]; [|apply IH].
  destruct (node_op n) as [v0|v0|a b|a|a dt|a sh|a axis|a c|a c];
    cbn [apply_op static_op_kind].
  - intros [= <-]. reflexivity.
  - intros [= <-]. reflexivity.
  - destruct (eval g a) as [va|] eqn:Ea; cbn [outcome_bind]; [|discriminate].
    destruct (eval g b) as [vb|] eqn:Eb; cbn [outcome_bind]; [|discriminate].
    rewrite (IH _ _ Ea). unfold nd.add.
    destruct va as [|dt sh xs]; [discriminate|].
    destruct vb as [|dt' [|? ?] [|k [|? ?]]]; try discriminate.
    destruct (dtype_eqb dt dt'); [|discriminate].
    intros [= <-]. reflexivity.
  - apply IH.
  - destruct (eval g a) as [va|] eqn:Ea; cbn [outcome_bind]; [|discriminate].
    destruct va; cbn [nd.cast]; [discriminate|]. intros [= <-]. reflexivity.
  - destruct (eval g a) as [va|] eqn:Ea; cbn [outcome_bind]; [|discriminate].
    rewrite (IH _ _ Ea). unfold nd.reshape.
    destruct (nd.reshape_shape _ sh); [|discriminate].
    intros [= <-]. destruct va; reflexivity.
  - destruct (eval g a) as [va|] eqn:Ea; cbn [outcome_bind]; [|discriminate].
    rewrite (IH _ _ Ea). unfold nd.expand_dims.
    destruct (nd.expand_shape _ axis); [|discriminate].
    intros [= <-]. destruct va; reflexivity.
  - destruct (eval g a) as [va|] eqn:Ea; cbn [outcome_bind]; [|discriminate].
    unfold nd.decode_png, nd.decode_image.
    destruct va as [[|? ?] [|s [|? ?]]|]; try discriminate.
    destruct (existsb _ _); [|discriminate].
    destruct (png_parse s); [|discriminate]. intros [= <-]. reflexivity.
  - destruct (eval g a) as [va|] eqn:Ea; cbn [outcome_bind]; [|discriminate].
    unfold nd.decode_jpeg, nd.decode_image.
    destruct va as [[|? ?] [|s [|? ?]]|]; try discriminate.
    destruct (existsb _ _); [|discriminate].
    destruct (jpeg_parse s); [|discriminate]. intros [= <-]. reflexivity.
Qed.

Lemma shape_with_shape (v : tvalue num) sh : nd.shape (nd.with_shape v sh) = sh.
Proof. destruct v; reflexivity. Qed.

(** A shape the graph knows before a run is the shape the run gives. *)
Lemma static_shape_sound (g : graph num) : forall x v sh,
  eval g x = Ret v -> static_shape g x = Some sh -> nd.shape v = sh.
Proof.
  induction g as [|n g IH]; intros x v sh; simpl; [discriminate|].
  destruct (Nat.eqb_spec x (length g)) as [->|Hne]; [|apply IH].
  destruct (node_op n) as [v0|v0|a b|a|a dt|a target|a axis|a c|a c];
    cbn [apply_op static_op_shape].
  - intros [= <-] [= <-]. reflexivity.
  - discriminate.
  - destruct (eval g a) as [va|] eqn:Ea; cbn [outcome_bind]; [|discriminate].
    destruct (eval g b) as [vb|] eqn:Eb; cbn [outcome_bind]; [|discriminate].
    intros Hv Hs. rewrite <- (IH _ _ _ Ea Hs). unfold nd.add in Hv.
    destruct va as [|dt sh0 xs]; [discriminate|].
    destruct vb as [|dt' [|? ?] [|k [|? ?]]]; try discriminate.
    destruct (dtype_eqb dt dt'); [|discriminate].
    injection Hv as <-. reflexivity.
  - apply IH.
  - destruct (eval g a) as [va|] eqn:Ea; cbn [outcome_bind]; [|discriminate].
    intros Hv Hs. rewrite <- (IH _ _ _ Ea Hs).
    destruct va; cbn [nd.cast] in Hv; [discriminate|]. injection Hv as <-. reflexivity.
  - destruct (eval g a) as [va|] eqn:Ea; cbn [outcome_bind]; [|discriminate].
    unfold nd.reshape, static_reshape.
    destruct (nd.reshape_shape (nd.num_elements (nd.shape va)) target) as [sh'|] eqn:Er;
      [|discriminate].
    intros [= <-]. rewrite shape_with_shape.
    unfold nd.reshape_shape in Er. unfold wildcard.
    destruct (existsb _ target); [discriminate|].
    destruct (filter (fun d => (d =? -1)%Z) target) as [|d0 [|d1 rest]] eqn:Ef.
    + destruct (_ =? _)%Z; [|discriminate]. injection Er as <-. now intros [= <-].
    + destruct (static_shape g a) as [sa|] eqn:Esa; [|discriminate].
      rewrite <- (IH _ _ _ Ea Esa). unfold nd.reshape_shape.
      destruct (existsb _ target) eqn:Eex.
      * discriminate.
      * rewrite Ef. intros H. rewrite H in Er. now injection Er.
    + discriminate.
  - destruct (eval g a) as [va|] eqn:Ea; cbn [outcome_bind]; [|discriminate].
    destruct (static_shape g a) as [sa|] eqn:Esa; [|discriminate].
    rewrite <- (IH _ _ _ Ea Esa). unfold nd.expand_dims.
    destruct (nd.expand_shape (nd.shape va) axis) as [sh'|]; [|discriminate].
    intros [= <-] [= <-]. apply shape_with_shape.
  - discriminate.
  - discriminate.
Qed.




End GraphFacts.

(** ** Names *)





Lemma simple_name_valid k : simple_name k = true -> valid_op_name k = true.
Proof. unfold simple_name. now rewrite andb_true_iff. Qed.

Lemma simple_name_no_slash k :
  simple_name k = true -> string_forallb (fun c => negb (is_slash c)) k = true.
Proof. unfold simple_name. now rewrite andb_true_iff. Qed.

Lemma no_slash_not_scope k :
  string_forallb (fun c => negb (is_slash c)) k = true -> ends_with_slash k = false.
Proof.
  induction k as [|c k IH]; [reflexivity|].
  cbn [string_forallb]. rewrite andb_true_iff. intros [Hc Hk].
  destruct k as [|c' k'].
  - cbn. now apply negb_true_iff.
  - change (ends_with_slash (String c (String c' k'))) with (ends_with_slash (String c' k')).
    now apply IH.
Qed.




Section NameFacts.
Context {num : Type}.


End NameFacts.

(** ** Building the graph: what each call checks and adds *)

Section Building.
Context {num : Type} {NUM : Numeric num}.

Lemma reshape_run x sh (w : world num) :
  tf.reshape x sh w =
  if tf.reshape_buildable (static_shape (w_graph w) x) sh
  then (Ret (length (w_graph w)),
        set_graph w ({| node_name := None; node_op := OpReshape x sh |} :: w_graph w))
  else (Raise ValueError, w).
Proof.
  unfold tf.reshape, bind, gets.
  destruct (tf.reshape_buildable _ sh); reflexivity.
Qed.

Lemma image_decode_run o contents channels (w : world num) :
  tf.image_decode o contents channels w =
  match static_kind (w_graph w) contents with
  | Some KString =>
      match static_shape (w_graph w) contents with
      | Some (_ :: _) => (Raise ValueError, w)
      | _ => if (channels <? 0)%Z then (Raise ValueError, w)
             else (Ret (length (w_graph w)),
                   set_graph w ({| node_name := None; node_op := o |} :: w_graph w))
      end
  | Some (KNumeric _) => (Raise TypeError, w)
  | None => (Raise DanglingReference, w)
  end.
Proof.
  unfold tf.image_decode, bind, gets.
  destruct (static_kind (w_graph w) contents) as [[|dt]|]; try reflexivity.
  destruct (static_shape (w_graph w) contents) as [[|? ?]|]; try reflexivity;
    destruct (channels <? 0)%Z; reflexivity.
Qed.

Lemma expand_dims_run x axis (w : world num) :
  tf.expand_dims x axis w =
  match static_shape (w_graph w) x with
  | Some sh =>
      match nd.expand_shape sh axis with
      | Some _ => (Ret (length (w_graph w)),
                   set_graph w ({| node_name := None; node_op := OpExpandDims x axis |}
                                  :: w_graph w))
      | None => (Raise ValueError, w)
      end
  | None => (Ret (length (w_graph w)),
             set_graph w ({| node_name := None; node_op := OpExpandDims x axis |}
                            :: w_graph w))
  end.
Proof.
  unfold tf.expand_dims, bind, gets.
  destruct (static_shape (w_graph w) x) as [sh|]; [|reflexivity].
  destruct (nd.expand_shape sh axis); reflexivity.
Qed.

(** [tf.identity] under a name that names no scope. *)
Lemma identity_run x k (w : world num) :
  simple_name k = true ->
  tf.identity x k w =
  (Ret (length (w_graph w)),
   set_graph w ({| node_name := Some (unique_name (w_graph w) k); node_op := OpIdentity x |}
                  :: w_graph w)).
Proof.
  intros Hk. unfold tf.identity, bind, gets.
  rewrite (simple_name_valid k Hk).
  rewrite (no_slash_not_scope k (simple_name_no_slash k Hk)). reflexivity.
Qed.

(** [x + k] on a numeric tensor: the constant, then the addition. *)
Lemma add_run x k dt (w : world num) :
  static_kind (w_graph w) x = Some (KNumeric dt) ->
  tf.add x k w =
  (Ret (S (length (w_graph w))),
   set_graph w
     ({| node_name := Some (unique_name (w_graph w) "add");
         node_op := OpAdd x (length (w_graph w)) |}
      :: {| node_name := Some (unique_name (w_graph w) "add" ++ "/y")%string;
            node_op := OpValue (VNumeric dt [] [num_of_Z dt k]) |}
      :: w_graph w)).
Proof.
  intros Hk. unfold tf.add, bind, gets. rewrite Hk. reflexivity.
Qed.

(** *** Calls only add nodes *)

Lemma extends_graph_pure {A} (r : outcome A) :
  extends_graph (fun w : world num => (r, w)).
Proof. intros w. exists []. cbn. now rewrite set_graph_same. Qed.

Lemma extends_graph_gets {A} (f : world num -> A) : extends_graph (gets f).
Proof. intros w. exists []. cbn. now rewrite set_graph_same. Qed.

Lemma extends_graph_add_node name (o : op num) : extends_graph (add_node name o).
Proof. intros w. now exists [ {| node_name := name; node_op := o |} ]. Qed.

Lemma extends_graph_bind {A B} (m : Py (world num) A) (k : A -> Py (world num) B) :
  extends_graph m -> (forall a, extends_graph (k a)) -> extends_graph (bind m k).
Proof.
  intros Hm Hk w. destruct (Hm w) as [added Ha]. unfold bind.
  destruct (m w) as [[a|e] w1]; cbn [state_of snd] in *.
  - destruct (Hk a w1) as [added' Ha']. exists (added' ++ added).
    rewrite Ha'. subst w1. cbn [w_graph set_graph]. now rewrite app_assoc.
  - exists added. exact Ha.
Qed.

Lemma extends_graph_for {A S} (body : A -> S -> Py (world num) S) xs :
  (forall x s, extends_graph (body x s)) -> forall s, extends_graph (py_for xs body s).
Proof.
  intros Hb. induction xs as [|x xs IH]; intros s; cbn [py_for].
  - apply (extends_graph_pure (Ret s)).
  - apply extends_graph_bind; [apply Hb | exact IH].
Qed.

Lemma extends_graph_reshape x sh : extends_graph (tf.reshape (num := num) x sh).
Proof.
  apply extends_graph_bind; [apply extends_graph_gets|]. intros g.
  destruct (tf.reshape_buildable _ sh);
    [apply extends_graph_add_node | apply (extends_graph_pure (Raise ValueError))].
Qed.

Lemma extends_graph_image_decode o contents channels :
  extends_graph (tf.image_decode (num := num) o contents channels).
Proof.
  apply extends_graph_bind; [apply extends_graph_gets|]. intros g.
  destruct (static_kind g contents) as [[|dt]|];
    try apply (extends_graph_pure (Raise _)).
  destruct (static_shape g contents) as [[|? ?]|];
    try apply (extends_graph_pure (Raise _));
    (destruct (channels <? 0)%Z;
     [apply (extends_graph_pure (Raise _)) | apply extends_graph_add_node]).
Qed.

Lemma extends_graph_expand_dims x axis : extends_graph (tf.expand_dims (num := num) x axis).
Proof.
  apply extends_graph_bind; [apply extends_graph_gets|]. intros g.
  destruct (static_shape g x) as [sh|]; [|apply extends_graph_add_node].
  destruct (nd.expand_shape sh axis);
    [apply extends_graph_add_node | apply (extends_graph_pure (Raise _))].
Qed.

Lemma extends_graph_identity x k : extends_graph (tf.identity (num := num) x k).
Proof.
  apply extends_graph_bind; [apply extends_graph_gets|]. intros g.
  destruct (valid_op_name k); [|apply (extends_graph_pure (Raise _))].
  destruct (ends_with_slash k); [|apply extends_graph_add_node].
  destruct (has_node_named g (drop_last k));
    [apply (extends_graph_pure (Raise _)) | apply extends_graph_add_node].
Qed.

Lemma extends_graph_add x k : extends_graph (tf.add x k).
Proof.
  apply extends_graph_bind; [apply extends_graph_gets|]. intros g.
  destruct (static_kind g x) as [[|dt]|]; try apply (extends_graph_pure (Raise _)).
  apply extends_graph_bind; [apply extends_graph_add_node|]. intros y.
  apply extends_graph_add_node.
Qed.

End Building.

(** ** Postprocessing: what the call returns *)

Lemma PyDict_In_assoc {V} k (v : V) l :
  NoDup (PyDict.keys_of l) -> In (k, v) l -> PyDict.assoc k l = Some v.
Proof.
  induction l as [|[k' v'] l IH]; simpl; [tauto|].
  intros Hnd [E|Hin]; inversion Hnd as [|? ? Hnotin Hnd']; subst.
  - injection E as -> ->. now rewrite String.eqb_refl.
  - destruct (String.eqb_spec k k') as [->|_]; [|now apply IH].
    exfalso. apply Hnotin. unfold PyDict.keys_of. apply in_map_iff. now exists (k', v).
Qed.

Lemma PyDict_In_get {V} (d : PyDict.t V) k v :
  In (k, v) (PyDict.items d) -> PyDict.get d k = Some v.
Proof.
  apply PyDict_In_assoc. apply PyDict_nodupb_NoDup, PyDict.entries_nodup.
Qed.

Lemma PyDict_In_keys {V} (d : PyDict.t V) k :
  In k (PyDict.keys d) <-> exists v, PyDict.get d k = Some v.
Proof.
  unfold PyDict.keys, PyDict.get, PyDict.keys_of.
  generalize (PyDict.entries d). intros l.
  induction l as [|[k' t'] l IH]; simpl.
  - split; [tauto | intros [t Ht]; discriminate].
  - destruct (String.eqb_spec k k') as [->|Hne].
    + split; [intros _; now exists t' | auto].
    + rewrite <- IH. split; [intros [E|H]; [congruence | exact H] | auto].
Qed.

Lemma count_occ_NoDup_mem k ks :
  NoDup ks ->
  count_occ string_dec ks k = if PyDict.mem k ks then 1 else 0.
Proof.
  induction 1 as [|k' ks Hnotin Hnd IH]; simpl; [reflexivity|].
  destruct (string_dec k' k) as [->|Hne].
  - rewrite String.eqb_refl.
    rewrite IH. destruct (PyDict.mem k ks) eqn:E; [|reflexivity].
    apply PyDict_mem_In in E. contradiction.
  - destruct (String.eqb_spec k k') as [->|_]; [congruence | exact IH].
Qed.


Section PostprocessingResult.
Context {num : Type} {NUM : Numeric num}.

(** A pass of the loop body that returns has appended the name. *)
Lemma name_and_collect_result off k t acc (w : world num) out w' :
  LayerInjector.name_and_collect off (k, t) acc w = (Ret out, w') -> out = acc ++ [k].
Proof.
  unfold LayerInjector.name_and_collect, bind.
  destruct ((if String.eqb k "detection_classes" then tf.add t off else ret t) w)
    as [[x|e] w1]; [|discriminate].
  destruct (tf.identity x k w1) as [[y|e] w2]; [|discriminate].
  unfold ret. now intros [= <- _].
Qed.

(** A run of the loop that returns has appended the keys, in order. *)
Lemma naming_loop_result off items : forall acc (w : world num) out w',
  py_for items (LayerInjector.name_and_collect off) acc w = (Ret out, w') ->
  out = acc ++ PyDict.keys_of items.
Proof.
  induction items as [|[k t] rest IH]; intros acc w out w'; cbn [py_for].
  - unfold ret. intros [= <- _]. simpl. now rewrite app_nil_r.
  - unfold bind at 1.
    destruct (LayerInjector.name_and_collect off (k, t) acc w) as [[s|e] w1] eqn:Hstep;
      [|discriminate].
    apply name_and_collect_result in Hstep. subst s.
    intros Hrest. apply IH in Hrest. subst out.
    cbn [PyDict.keys_of map fst]. now rewrite <- app_assoc.
Qed.

(** A call that returns has returned the keys and [False]. *)
Lemma postprocess_result self r args (w : world num) d out w' :
  nth_error (w_heap w) r = Some d ->
  LayerInjector.object_detection_dict_to_tensor_dict self r args w = (Ret out, w') ->
  out = (PyDict.keys d, false).
Proof.
  intros Hd.
  unfold LayerInjector.object_detection_dict_to_tensor_dict, heap_get.
  unfold bind at 1. unfold bind at 1. unfold gets, from_option.
  rewrite Hd. unfold ret at 1. unfold bind at 1.
  destruct (py_for (PyDict.items d) (LayerInjector.name_and_collect 1) [] w)
    as [[names|e] w1] eqn:Hloop; [|discriminate].
  apply naming_loop_result in Hloop. subst names.
  unfold ret. now intros [= <- _].
Qed.

(** One pass of the loop body on a key that can name an operation (and a
    numeric tensor for the class ids): it returns, having added the
    identity node, behind the constant and the addition for the class
    ids. *)
Lemma name_and_collect_returns off k t acc (w : world num) :
  simple_name k = true ->
  (k = "detection_classes" -> exists dt, static_kind (w_graph w) t = Some (KNumeric dt)) ->
  exists added,
    LayerInjector.name_and_collect off (k, t) acc w
      = (Ret (acc ++ [k]), set_graph w (added ++ w_graph w)) /\
    length added = 1 + (if string_dec k "detection_classes" then 2 else 0).
Proof.
  intros Hk Hnum. unfold LayerInjector.name_and_collect.
  destruct (String.eqb_spec k "detection_classes") as [E|E];
    destruct (string_dec k "detection_classes") as [E'|E']; try contradiction.
  - destruct (Hnum E) as [dt Hdt].
    erewrite bind_Ret by (apply add_run; exact Hdt).
    erewrite bind_Ret by (apply identity_run; exact Hk).
    eexists [_; _; _]. split; reflexivity.
  - erewrite bind_Ret by reflexivity.
    erewrite bind_Ret by (apply identity_run; exact Hk).
    eexists [_]. split; reflexivity.
Qed.

(** The whole loop on such a mapping: it returns the keys, and has added
    one node per entry and two more for each entry named
    "detection_classes". *)
Lemma naming_loop_returns off items : forall acc (w : world num),
  (forall k, In k (PyDict.keys_of items) -> simple_name k = true) ->
  (forall t, In ("detection_classes", t) items ->
             exists dt, static_kind (w_graph w) t = Some (KNumeric dt)) ->
  exists added,
    py_for items (LayerInjector.name_and_collect off) acc w
      = (Ret (acc ++ PyDict.keys_of items), set_graph w (added ++ w_graph w)) /\
    length added
    = length items + 2 * count_occ string_dec (PyDict.keys_of items) "detection_classes".
Proof.
  induction items as [|[k0 t0] rest IH]; intros acc w Hs Hnum.
  - exists []. simpl. rewrite app_nil_r, set_graph_same. split; reflexivity.
  - destruct (name_and_collect_returns off k0 t0 acc w) as (a1 & Hrun & Hlen).
    { apply Hs. now left. }
    { intros ->. apply Hnum. now left. }
    destruct (IH (acc ++ [k0]) (set_graph w (a1 ++ w_graph w))) as (a2 & Hrun' & Hlen').
    { intros k Hk. apply Hs. now right. }
    { intros t Ht. destruct (Hnum t (or_intror Ht)) as [dt Hdt].
      exists dt. cbn [w_graph set_graph].
      rewrite static_kind_app_old; [exact Hdt | eapply static_kind_lt; exact Hdt]. }
    cbn [w_graph set_graph] in Hrun'.
    exists (a2 ++ a1). split.
    + cbn [py_for]. erewrite bind_Ret by exact Hrun. rewrite Hrun'.
      cbn [PyDict.keys_of map fst]. rewrite <- !app_assoc. reflexivity.
    + rewrite length_app, Hlen, Hlen'. unfold PyDict.keys_of.
      cbn [map fst count_occ length].
      destruct (string_dec k0 "detection_classes"); lia.
Qed.

(** What [classes_numeric] says of the entries. *)
Lemma classes_numeric_entries (g : graph num) (d : PyDict.t tensor) :
  classes_numeric g d = true ->
  forall t, In ("detection_classes", t) (PyDict.items d) ->
            exists dt, static_kind g t = Some (KNumeric dt).
Proof.
  unfold classes_numeric. intros H t Hin.
  rewrite (PyDict_In_get d _ _ Hin) in H.
  destruct (static_kind g t) as [[|dt]|]; try discriminate. now exists dt.
Qed.

(** The call on such a mapping returns the keys and [False], and only
    adds nodes. *)
Lemma postprocess_returns self r args (w : world num) d :
  nth_error (w_heap w) r = Some d ->
  keys_are_names d = true ->
  classes_numeric (w_graph w) d = true ->
  exists added,
    LayerInjector.object_detection_dict_to_tensor_dict self r args w
      = (Ret (PyDict.keys d, false), set_graph w (added ++ w_graph w)) /\
    length added
    = length (PyDict.keys d)
      + 2 * (if PyDict.mem "detection_classes" (PyDict.keys d) then 1 else 0).
Proof.
  intros Hd Hkeys Hnum.
  destruct (naming_loop_returns 1 (PyDict.items d) [] w) as (added & Hrun & Hlen).
  { intros k Hk. unfold keys_are_names in Hkeys.
    rewrite forallb_forall in Hkeys. now apply Hkeys. }
  { now apply classes_numeric_entries. }
  exists added. split.
  - unfold LayerInjector.object_detection_dict_to_tensor_dict, heap_get.
    unfold bind at 1. unfold bind at 1. unfold gets, from_option.
    rewrite Hd. unfold ret at 1. unfold bind at 1. rewrite Hrun. reflexivity.
  - rewrite Hlen. unfold PyDict.keys, PyDict.items, PyDict.keys_of.
    rewrite length_map.
    rewrite (count_occ_NoDup_mem _ _ (PyDict_keys_NoDup d)). reflexivity.
Qed.

(** C2.  Whenever the call returns, the list of output node names it
    returns is the list of the keys of the mapping, in iteration order;
    that list has no duplicate, and a name is in it exactly when it is a
    key.  And the call does return, with that list, on every output
    structure of the data model: a mapping whose keys can name operations
    and whose class ids, if it has any, are numbers. *)
Theorem output_node_names_are_the_keys self r args (w : world num) d :
  nth_error (w_heap w) r = Some d ->
  (forall names flag w',
      LayerInjector.object_detection_dict_to_tensor_dict self r args w
        = (Ret (names, flag), w') ->
      names = map fst (PyDict.items d)) /\
  NoDup (map fst (PyDict.items d)) /\
  (forall k, In k (map fst (PyDict.items d)) <-> exists t, PyDict.get d k = Some t) /\
  (keys_are_names d = true ->
   classes_numeric (w_graph w) d = true ->
   exists flag w',
     LayerInjector.object_detection_dict_to_tensor_dict self r args w
       = (Ret (map fst (PyDict.items d), flag), w')).
Proof.
  intros Hd. split; [|split; [|split]].
  - intros names flag w' Hrun.
    apply (postprocess_result self r args w d _ _ Hd) in Hrun. now injection Hrun.
  - apply PyDict_keys_NoDup.
  - apply PyDict_In_keys.
  - intros Hkeys Hnum.
    destruct (postprocess_returns self r args w d Hd Hkeys Hnum) as (added & Hrun & _).
    exists false. eexists. exact Hrun.
Qed.

(** C4.  Whenever the call returns, the output-as-image flag it returns is
    [False]; and it does return, with that flag, on every output structure
    of the data model. *)
Theorem output_as_image_is_false self r args (w : world num) d :
  nth_error (w_heap w) r = Some d ->
  (forall names flag w',
      LayerInjector.object_detection_dict_to_tensor_dict self r args w
        = (Ret (names, flag), w') ->
      flag = false) /\
  (keys_are_names d = true ->
   classes_numeric (w_graph w) d = true ->
   exists names w',
     LayerInjector.object_detection_dict_to_tensor_dict self r args w
       = (Ret (names, false), w')).
Proof.
  intros Hd. split.
  - intros names flag w' Hrun.
    apply (postprocess_result self r args w d _ _ Hd) in Hrun. now injection Hrun.
  - intros Hkeys Hnum.
    destruct (postprocess_returns self r args w d Hd Hkeys Hnum) as (added & Hrun & _).
    eexists. eexists. exact Hrun.
Qed.

(** *** Mappings the call refuses *)

(** The addition is refused on a string tensor, and nothing is added. *)
Lemma add_refused x k (w : world num) :
  static_kind (w_graph w) x = Some KString ->
  tf.add x k w = (Raise TypeError, w).
Proof. intros Hk. unfold tf.add, bind, gets. now rewrite Hk. Qed.

(** The identity is refused under a name that is no operation name, and
    nothing is added. *)
Lemma identity_refused x k (w : world num) :
  valid_op_name k = false ->
  tf.identity x k w = (Raise ValueError, w).
Proof. intros Hk. unfold tf.identity, bind, gets. now rewrite Hk. Qed.

(** The loop stops with TypeError at class ids that are strings. *)
Lemma naming_loop_string_classes off items : forall acc (w : world num) t,
  (forall k, In k (PyDict.keys_of items) -> simple_name k = true) ->
  NoDup (PyDict.keys_of items) ->
  In ("detection_classes", t) items ->
  static_kind (w_graph w) t = Some KString ->
  result_of (py_for items (LayerInjector.name_and_collect off) acc w) = Raise TypeError.
Proof.
  induction items as [|[k0 t0] rest IH]; intros acc w t Hs Hnd Hin Hkind; [destruct Hin|].
  cbn [PyDict.keys_of map fst] in Hs, Hnd.
  inversion Hnd as [|? ? Hnotin Hnd']; subst.
  cbn [py_for]. destruct Hin as [E|Hin].
  - injection E as -> ->.
    erewrite bind_Raise; [reflexivity|].
    unfold LayerInjector.name_and_collect. rewrite String.eqb_refl.
    erewrite bind_Raise; [reflexivity|]. now apply add_refused.
  - assert (Hne : k0 <> "detection_classes").
    { intros ->. apply Hnotin. unfold PyDict.keys_of. apply in_map_iff.
      now exists ("detection_classes", t). }
    destruct (name_and_collect_returns off k0 t0 acc w) as (a1 & Hrun & _).
    { apply Hs. now left. }
    { intros E. contradiction. }
    erewrite bind_Ret by exact Hrun.
    apply (IH _ _ t); [intros k Hk; apply Hs; now right | exact Hnd' | exact Hin |].
    cbn [w_graph set_graph].
    rewrite static_kind_app_old; [exact Hkind | eapply static_kind_lt; exact Hkind].
Qed.

(** The loop stops with ValueError at the first key that is no operation
    name. *)
Lemma naming_loop_bad_key off pre : forall acc (w : world num) k t post,
  (forall k', In k' (PyDict.keys_of pre) -> simple_name k' = true) ->
  (forall t', In ("detection_classes", t') pre ->
              exists dt, static_kind (w_graph w) t' = Some (KNumeric dt)) ->
  valid_op_name k = false ->
  result_of (py_for (pre ++ (k, t) :: post) (LayerInjector.name_and_collect off) acc w)
  = Raise ValueError.
Proof.
  induction pre as [|[k0 t0] pre IH]; intros acc w k t post Hs Hnum Hbad; cbn [app py_for].
  - erewrite bind_Raise; [reflexivity|].
    unfold LayerInjector.name_and_collect.
    destruct (String.eqb_spec k "detection_classes") as [->|_]; [discriminate Hbad|].
    erewrite bind_Ret by reflexivity.
    erewrite bind_Raise; [reflexivity|]. now apply identity_refused.
  - destruct (name_and_collect_returns off k0 t0 acc w) as (a1 & Hrun & _).
    { apply Hs. now left. }
    { intros ->. apply Hnum. now left. }
    erewrite bind_Ret by exact Hrun.
    apply IH; [intros k' Hk'; apply Hs; now right | | exact Hbad].
    intros t' Ht'. destruct (Hnum t' (or_intror Ht')) as [dt Hdt].
    exists dt. cbn [w_graph set_graph].
    rewrite static_kind_app_old; [exact Hdt | eapply static_kind_lt; exact Hdt].
Qed.

(** The outcome of the call is the outcome of its loop, when that
    raises. *)
Lemma postprocess_raises self r args (w : world num) d e :
  nth_error (w_heap w) r = Some d ->
  result_of (py_for (PyDict.items d) (LayerInjector.name_and_collect 1) [] w) = Raise e ->
  result_of (LayerInjector.object_detection_dict_to_tensor_dict self r args w) = Raise e.
Proof.
  intros Hd Hloop.
  unfold LayerInjector.object_detection_dict_to_tensor_dict, heap_get.
  unfold bind at 1. unfold bind at 1. unfold gets, from_option.
  rewrite Hd. unfold ret at 1. unfold bind at 1.
  destruct (py_for (PyDict.items d) (LayerInjector.name_and_collect 1) [] w)
    as [[names|e'] w1]; [discriminate Hloop|].
  cbn [result_of fst] in *. now injection Hloop as ->.
Qed.

(** X14.  A key that cannot name an operation makes the call raise
    ValueError, when the keys before it can and the class ids, if they
    come before it, are numbers: nothing is returned for such a mapping. *)
Theorem postprocess_refuses_a_key_that_is_no_name self r args (w : world num) d pre k t post :
  nth_error (w_heap w) r = Some d ->
  PyDict.items d = pre ++ (k, t) :: post ->
  forallb simple_name (PyDict.keys_of pre) = true ->
  classes_numeric (w_graph w) d = true ->
  valid_op_name k = false ->
  result_of (LayerInjector.object_detection_dict_to_tensor_dict self r args w)
  = Raise ValueError.
Proof.
  intros Hd Hitems Hpre Hnum Hbad.
  apply (postprocess_raises self r args w d _ Hd). rewrite Hitems.
  apply naming_loop_bad_key; [| |exact Hbad].
  - intros k' Hk'. rewrite forallb_forall in Hpre. now apply Hpre.
  - intros t' Ht'. apply (classes_numeric_entries _ d Hnum).
    rewrite Hitems. apply in_or_app. now left.
Qed.

(** *** What the call leaves alone *)

Lemma extends_graph_name_and_collect off item acc :
  extends_graph (LayerInjector.name_and_collect (num := num) off item acc).
Proof.
  destruct item as [k t]. unfold LayerInjector.name_and_collect.
  apply extends_graph_bind.
  - destruct (String.eqb k "detection_classes");
      [apply extends_graph_add | apply (extends_graph_pure (Ret t))].
  - intros x. apply extends_graph_bind; [apply extends_graph_identity|].
    intros y. apply (extends_graph_pure (Ret _)).
Qed.

Lemma extends_graph_postprocess self r args :
  extends_graph
    (LayerInjector.object_detection_dict_to_tensor_dict (num := num) self r args).
Proof.
  unfold LayerInjector.object_detection_dict_to_tensor_dict.
  apply extends_graph_bind.
  - unfold heap_get. apply extends_graph_bind; [apply extends_graph_gets|].
    intros h. unfold from_option.
    destruct (nth_error h r);
      [apply (extends_graph_pure (Ret _)) | apply (extends_graph_pure (Raise _))].
  - intros d. apply extends_graph_bind.
    + apply extends_graph_for. intros x s. apply extends_graph_name_and_collect.
    + intros names. apply (extends_graph_pure (Ret _)).
Qed.

(** X5.  On an output structure of the data model the call only grows the
    graph: the heap and the log are as before, the nodes that were there
    are still there, and the graph has one node more per key of the
    mapping, plus two (the constant 1 and the addition) when
    "detection_classes" is a key; on an empty mapping the state is left as
    it was. *)
Theorem postprocess_adds_one_node_per_key self r args (w : world num) d :
  nth_error (w_heap w) r = Some d ->
  keys_are_names d = true ->
  classes_numeric (w_graph w) d = true ->
  exists out w' added,
    LayerInjector.object_detection_dict_to_tensor_dict self r args w = (Ret out, w') /\
    w_heap w' = w_heap w /\
    w_log w' = w_log w /\
    w_graph w' = added ++ w_graph w /\
    length added
    = length (PyDict.keys d)
      + (if PyDict.mem "detection_classes" (PyDict.keys d) then 2 else 0) /\
    (PyDict.keys d = [] -> out = ([], false) /\ w' = w).
Proof.
  intros Hd Hkeys Hnum.
  destruct (postprocess_returns self r args w d Hd Hkeys Hnum) as (added & Hrun & Hlen).
  exists (PyDict.keys d, false), (set_graph w (added ++ w_graph w)), added.
  split; [exact Hrun|]. split; [reflexivity|]. split; [reflexivity|].
  split; [reflexivity|]. split.
  - rewrite Hlen. destruct (PyDict.mem _ _); lia.
  - intros Hempty. rewrite Hempty in *. cbn [PyDict.mem length] in Hlen.
    destruct added; [|discriminate Hlen]. cbn [app].
    now rewrite set_graph_same.
Qed.

End PostprocessingResult.

(** ** Postprocessing: the naming loop *)

Section NamingLoop.
Context {num : Type} {NUM : Numeric num} {codec : ImageCodec}.



End NamingLoop.

(** ** Postprocessing: [object_detection_dict_to_tensor_dict] *)

Section Postprocessing.
Context {num : Type} {NUM : Numeric num} {codec : ImageCodec}.





(** X13.  Class ids that are strings make the call raise TypeError, at
    the addition of the offset: nothing is returned for such a mapping,
    whose other keys are operation names. *)
Theorem postprocess_refuses_string_classes self r args (w : world num) d t sh xs :
  nth_error (w_heap w) r = Some d ->
  keys_are_names d = true ->
  PyDict.get d "detection_classes" = Some t ->
  eval (w_graph w) t = Ret (VString sh xs) ->
  result_of (LayerInjector.object_detection_dict_to_tensor_dict self r args w)
  = Raise TypeError.
Proof.
  intros Hd Hkeys Hget Hval.
  apply (postprocess_raises self r args w d _ Hd).
  apply (naming_loop_string_classes 1 _ _ _ t).
  - intros k Hk. unfold keys_are_names in Hkeys.
    rewrite forallb_forall in Hkeys. now apply Hkeys.
  - apply PyDict_keys_NoDup.
  - now apply PyDict_get_In.
  - apply (static_kind_sound _ _ _ Hval).
Qed.

(** C9.  The call does not change its input mapping, whether it returns or
    raises: afterwards the heap, and so the dictionary behind the
    reference, is as before; the graph has only gained nodes, and every
    tensor that was in it, those of the dictionary among them, evaluates
    as before.  The offset is in a node the call adds. *)
Theorem input_mapping_not_mutated self r args (w : world num) :
  w_heap (state_of (LayerInjector.object_detection_dict_to_tensor_dict self r args w))
  = w_heap w /\
  (exists added,
      w_graph (state_of (LayerInjector.object_detection_dict_to_tensor_dict self r args w))
      = added ++ w_graph w) /\
  (forall x, x < length (w_graph w) ->
     eval (w_graph (state_of
                      (LayerInjector.object_detection_dict_to_tensor_dict self r args w))) x
     = eval (w_graph w) x).
Proof.
  destruct (extends_graph_postprocess self r args w) as [added Hst].
  rewrite Hst. cbn [w_heap w_graph set_graph].
  split; [reflexivity|]. split; [now exists added|].
  intros x Hx. now apply eval_app_old.
Qed.

End Postprocessing.

(** ** Extra positional arguments *)

Section ExtraArguments.
Context {num : Type} {NUM : Numeric num}.

(** C10.  Both layer-injection functions ignore [*args]: from the same
    state, two calls that differ only in the extra arguments return the
    same value (the same tensor; the same name list and flag) and leave the
    same state. *)
Theorem extra_arguments_are_ignored self input_bytes channels r args1 args2
    (w : world num) :
  LayerInjector.bitstring_to_uint8_tensor self input_bytes channels args1 w
  = LayerInjector.bitstring_to_uint8_tensor self input_bytes channels args2 w /\
  LayerInjector.object_detection_dict_to_tensor_dict self r args1 w
  = LayerInjector.object_detection_dict_to_tensor_dict self r args2 w.
Proof.
  split.
  - unfold LayerInjector.bitstring_to_uint8_tensor. reflexivity.
  - unfold LayerInjector.object_detection_dict_to_tensor_dict. reflexivity.
Qed.

End ExtraArguments.

(** ** Preprocessing: [bitstring_to_uint8_tensor] *)

Section Preprocessing.
Context {num : Type} {NUM : Numeric num} {codec : ImageCodec}.

(** The reshape to a scalar is let through when the input is not known to
    hold another number of elements than one. *)
Lemma scalar_buildable (g : graph num) x v :
  eval g x = Ret v ->
  tf.reshape_buildable (static_shape g x) []
  = match static_shape g x with
    | Some _ => (1 =? nd.num_elements (nd.shape v))%Z
    | None => true
    end.
Proof.
  intros Hin. unfold tf.reshape_buildable. cbn [existsb negb filter andb].
  destruct (static_shape g x) as [sh|] eqn:Es; [|reflexivity].
  now rewrite (static_shape_sound _ _ _ _ Hin Es).
Qed.

(** A call that returns has added the three operations; the tensor it
    returns is the input reshaped to a scalar, decoded, and given a
    leading dimension. *)
Lemma preprocess_result self input_bytes channels args (w : world num) t w' :
  LayerInjector.bitstring_to_uint8_tensor self input_bytes channels args w = (Ret t, w') ->
  w_heap w' = w_heap w /\ w_log w' = w_log w /\
  eval (w_graph w') t =
  outcome_bind
    (outcome_bind
       (outcome_bind (eval (w_graph w) input_bytes) (fun v => nd.reshape v []))
       (fun v => nd.decode_png v channels))
    (fun v => nd.expand_dims v 0).
Proof.
  unfold LayerInjector.bitstring_to_uint8_tensor, tf.image_decode_png.
  destruct (tf.reshape input_bytes [] w) as [[a|e] w1] eqn:E1;
    [erewrite bind_Ret by exact E1 | erewrite bind_Raise by exact E1; discriminate].
  rewrite reshape_run in E1.
  destruct (tf.reshape_buildable _ _); [|discriminate E1].
  injection E1 as <- <-.
  destruct (tf.image_decode (OpDecodePng (length (w_graph w)) channels)
              (length (w_graph w)) channels
              (set_graph w ({| node_name := None; node_op := OpReshape input_bytes [] |}
                              :: w_graph w))) as [[b|e] w2] eqn:E2;
    [erewrite bind_Ret by exact E2 | erewrite bind_Raise by exact E2; discriminate].
  rewrite image_decode_run in E2.
  destruct (static_kind _ _) as [[|dt]|]; try discriminate E2.
  assert (E2' : (Ret b, w2)
                = (Ret (length (w_graph (set_graph w
                      ({| node_name := None; node_op := OpReshape input_bytes [] |}
                         :: w_graph w)))),
                   set_graph (set_graph w
                      ({| node_name := None; node_op := OpReshape input_bytes [] |}
                         :: w_graph w))
                     ({| node_name := None;
                         node_op := OpDecodePng (length (w_graph w)) channels |}
                      :: w_graph (set_graph w
                           ({| node_name := None; node_op := OpReshape input_bytes [] |}
                              :: w_graph w))))).
  { destruct (static_shape _ _) as [[|? ?]|]; try discriminate E2;
      (destruct (channels <? 0)%Z; [discriminate E2 | now symmetry]). }
  clear E2. injection E2' as -> ->.
  cbn [w_graph set_graph].
  match goal with
  | |- bind ?m _ ?w0 = _ -> _ => destruct (m w0) as [[c|e] w3] eqn:E3
  end;
    [erewrite bind_Ret by exact E3 | erewrite bind_Raise by exact E3; discriminate].
  rewrite expand_dims_run in E3. cbn [w_graph set_graph] in E3.
  assert (E3' : (Ret c, w3)
                = (Ret (length ({| node_name := None;
                                   node_op := OpDecodePng (length (w_graph w)) channels |}
                                  :: {| node_name := None;
                                        node_op := OpReshape input_bytes [] |}
                                  :: w_graph w)),
                   set_graph w
                     ({| node_name := None;
                         node_op := OpExpandDims
                                      (length ({| node_name := None;
                                                  node_op := OpReshape input_bytes [] |}
                                                 :: w_graph w)) 0 |}
                      :: {| node_name := None;
                            node_op := OpDecodePng (length (w_graph w)) channels |}
                      :: {| node_name := None; node_op := OpReshape input_bytes [] |}
                      :: w_graph w))).
  { destruct (static_shape _ _) as [sh|]; [|now symmetry].
    destruct (nd.expand_shape sh 0); [now symmetry | discriminate E3]. }
  clear E3. injection E3' as -> ->.
  unfold ret. intros [= <- <-]. cbn [w_heap w_log w_graph set_graph].
  split; [reflexivity|]. split; [reflexivity|].
  rewrite eval_cons_at by reflexivity. cbn [node_op apply_op].
  rewrite eval_cons_at by reflexivity. cbn [node_op apply_op].
  rewrite eval_cons_new. reflexivity.
Qed.

(** The call returns on a string tensor that the reshape to a scalar
    lets through, with a channel count that is not negative. *)
Lemma preprocess_returns self input_bytes channels args (w : world num) :
  tf.reshape_buildable (static_shape (w_graph w) input_bytes) [] = true ->
  static_kind (w_graph w) input_bytes = Some KString ->
  (0 <= channels)%Z ->
  exists t w',
    LayerInjector.bitstring_to_uint8_tensor self input_bytes channels args w = (Ret t, w').
Proof.
  intros Hb Hkind Hc.
  unfold LayerInjector.bitstring_to_uint8_tensor, tf.image_decode_png.
  erewrite bind_Ret by (rewrite reshape_run, Hb; reflexivity).
  erewrite bind_Ret.
  2:{ rewrite image_decode_run. cbn [w_graph set_graph].
      rewrite static_kind_cons_new, static_shape_cons_new.
      cbn [node_op static_op_kind static_op_shape static_reshape filter].
      rewrite Hkind.
      destruct (Z.ltb_spec channels 0) as [Hneg|_]; [lia | reflexivity]. }
  cbn [w_graph set_graph].
  erewrite bind_Ret.
  2:{ rewrite expand_dims_run. cbn [w_graph set_graph].
      rewrite static_shape_cons_at by reflexivity. reflexivity. }
  eexists. eexists. reflexivity.
Qed.

(** The call on such an input: the tensor it returns is the input reshaped
    to a scalar, decoded, and given a leading dimension. *)
Lemma preprocess_value self input_bytes channels args (w : world num) v :
  eval (w_graph w) input_bytes = Ret v ->
  kind_of v = KString ->
  nd.num_elements (nd.shape v) = 1%Z ->
  (0 <= channels)%Z ->
  exists t w',
    LayerInjector.bitstring_to_uint8_tensor self input_bytes channels args w = (Ret t, w') /\
    w_heap w' = w_heap w /\ w_log w' = w_log w /\
    eval (w_graph w') t =
    outcome_bind
      (outcome_bind (nd.reshape v []) (fun v => nd.decode_png v channels))
      (fun v => nd.expand_dims v 0).
Proof.
  intros Hin Hkind Hsh Hc.
  destruct (preprocess_returns self input_bytes channels args w) as (t & w' & Hrun).
  { rewrite (scalar_buildable _ _ _ Hin), Hsh. now destruct (static_shape _ _). }
  { now rewrite (static_kind_sound _ _ _ Hin), Hkind. }
  { exact Hc. }
  destruct (preprocess_result self input_bytes channels args w t w' Hrun)
    as (Hheap & Hlog & Hval).
  exists t, w'. rewrite Hin in Hval. auto.
Qed.

(** Reshaping a string tensor of one element to a scalar. *)
Lemma reshape_to_scalar sh (s : string) :
  nd.num_elements sh = 1%Z ->
  nd.reshape (num := num) (VString sh [s]) [] = Ret (VString [] [s]).
Proof.
  intros H. unfold nd.reshape, nd.reshape_shape. simpl. now rewrite H.
Qed.

(** Decoding with an accepted channel count other than 0. *)
Lemma decode_png_channels (s : string) img channels :
  png_parse s = Some img ->
  (channels = 1 \/ channels = 3 \/ channels = 4)%Z ->
  nd.decode_png (VString [] [s]) channels
  = Ret (VNumeric DT_UINT8
           [Z.of_nat (img_height img); Z.of_nat (img_width img); channels]
           (map (num_of_Z DT_UINT8) (img_samples img channels))).
Proof.
  intros Hp Hc. unfold nd.decode_png, nd.decode_image. rewrite Hp.
  destruct Hc as [->|[->| ->]]; reflexivity.
Qed.

(** C3.  On a string tensor holding one valid PNG and a channel count the
    decoder can be asked for (1, 3 or 4), the call returns a tensor whose
    value is a uint8 batch of one: the decoded image with a leading
    dimension 1, so of rank one more than the image, of shape
    [1, height, width, channels]; for a 3-channel PNG decoded with 3
    channels that is [1, H, W, 3]. *)
Theorem preprocess_batch_of_one self input_bytes channels args (w : world num) sh s img :
  eval (w_graph w) input_bytes = Ret (VString sh [s]) ->
  nd.num_elements sh = 1%Z ->
  png_parse s = Some img ->
  (channels = 1 \/ channels = 3 \/ channels = 4)%Z ->
  exists t w' decoded v,
    LayerInjector.bitstring_to_uint8_tensor self input_bytes channels args w = (Ret t, w') /\
    nd.decode_png (VString [] [s]) channels = Ret decoded /\
    eval (w_graph w') t = Ret v /\
    nd.rank v = S (nd.rank decoded) /\
    nd.shape v = 1%Z :: nd.shape decoded /\
    v = VNumeric DT_UINT8
          [1%Z; Z.of_nat (img_height img); Z.of_nat (img_width img); channels]
          (map (num_of_Z DT_UINT8) (img_samples img channels)) /\
    (img_channels img = 3 -> channels = 3%Z ->
     nd.shape v = [1%Z; Z.of_nat (img_height img); Z.of_nat (img_width img); 3%Z]).
Proof.
  intros Hin Hsh Hp Hc.
  destruct (preprocess_value self input_bytes channels args w _ Hin eq_refl Hsh)
    as (t & w' & Hrun & _ & _ & Hval); [lia|].
  pose proof (decode_png_channels s img channels Hp Hc) as Hdec.
  exists t, w'. eexists. eexists.
  split; [exact Hrun|]. split; [exact Hdec|].
  rewrite Hval.
  rewrite (reshape_to_scalar sh s Hsh). cbn [outcome_bind]. rewrite Hdec.
  cbn [outcome_bind]. unfold nd.expand_dims. cbn.
  repeat split.
  intros _ ->. reflexivity.
Qed.

(** X1.  For the decoder 0 is not a number of channels but the request to
    keep the channels stored in the file: the batch then has as many
    channels as the picture. *)
Lemma preprocess_keeps_file_channels self input_bytes args (w : world num) sh s img :
  eval (w_graph w) input_bytes = Ret (VString sh [s]) ->
  nd.num_elements sh = 1%Z ->
  png_parse s = Some img ->
  exists t w' v,
    LayerInjector.bitstring_to_uint8_tensor self input_bytes 0 args w = (Ret t, w') /\
    eval (w_graph w') t = Ret v /\
    nd.shape v = [1%Z; Z.of_nat (img_height img); Z.of_nat (img_width img);
                  Z.of_nat (img_channels img)].
Proof.
  intros Hin Hsh Hp.
  destruct (preprocess_value self input_bytes 0 args w _ Hin eq_refl Hsh)
    as (t & w' & Hrun & _ & _ & Hval); [lia|].
  exists t, w'. eexists. split; [exact Hrun|].
  rewrite Hval.
  rewrite (reshape_to_scalar sh s Hsh). cbn [outcome_bind].
  unfold nd.decode_png, nd.decode_image. rewrite Hp. cbn.
  split; reflexivity.
Qed.

(** X2.  Bytes that are no PNG, or a channel count that is not negative
    but that the decoder refuses, do not stop the call, which only builds
    the graph: it returns a tensor, and the run of that tensor fails with
    InvalidArgumentError. *)
Lemma preprocess_rejects self input_bytes channels args (w : world num) sh s :
  eval (w_graph w) input_bytes = Ret (VString sh [s]) ->
  nd.num_elements sh = 1%Z ->
  (0 <= channels)%Z ->
  png_parse s = None \/ ~ In channels [0; 1; 3; 4]%Z ->
  exists t w',
    LayerInjector.bitstring_to_uint8_tensor self input_bytes channels args w = (Ret t, w') /\
    eval (w_graph w') t = Raise InvalidArgumentError.
Proof.
  intros Hin Hsh Hc Hbad.
  destruct (preprocess_value self input_bytes channels args w _ Hin eq_refl Hsh Hc)
    as (t & w' & Hrun & _ & _ & Hval).
  exists t, w'. split; [exact Hrun|].
  rewrite Hval.
  rewrite (reshape_to_scalar sh s Hsh). cbn [outcome_bind].
  unfold nd.decode_png, nd.decode_image.
  destruct (existsb (Z.eqb channels) [0; 1; 3; 4]%Z) eqn:Hex; [|reflexivity].
  destruct Hbad as [Hp|Hc'].
  - rewrite Hp. reflexivity.
  - exfalso. apply Hc'. apply existsb_exists in Hex as (c & Hc'' & Heq).
    apply Z.eqb_eq in Heq. now subst.
Qed.

(** X16.  A negative channel count is refused while the graph is built:
    the call raises ValueError at the decoder, after the reshape. *)
Theorem preprocess_refuses_negative_channels self input_bytes channels args (w : world num) sh s :
  eval (w_graph w) input_bytes = Ret (VString sh [s]) ->
  nd.num_elements sh = 1%Z ->
  (channels < 0)%Z ->
  result_of (LayerInjector.bitstring_to_uint8_tensor self input_bytes channels args w)
  = Raise ValueError.
Proof.
  intros Hin Hsh Hc.
  unfold LayerInjector.bitstring_to_uint8_tensor, tf.image_decode_png.
  assert (Hb : tf.reshape_buildable (static_shape (w_graph w) input_bytes) [] = true).
  { rewrite (scalar_buildable _ _ _ Hin). cbn [nd.shape]. rewrite Hsh.
    now destruct (static_shape _ _). }
  erewrite bind_Ret by (rewrite reshape_run, Hb; reflexivity).
  erewrite bind_Raise; [reflexivity|].
  rewrite image_decode_run. cbn [w_graph set_graph].
  rewrite static_kind_cons_new, static_shape_cons_new.
  cbn [node_op static_op_kind static_op_shape static_reshape filter].
  rewrite (static_kind_sound _ _ _ Hin). cbn [kind_of].
  destruct (Z.ltb_spec channels 0) as [_|Hge]; [reflexivity | lia].
Qed.

(** X3.  The call handles one encoded image at a time.  On a tensor that
    does not hold exactly one element (a batch of several bitstrings, or
    none) it never gives a tensor with a value: a call that returns has
    returned a tensor whose run fails in the reshape to a scalar.  When
    the graph knows the shape of the input, the call itself is refused
    with ValueError and adds nothing; when it does not, the call on a
    string tensor returns, and the run fails. *)
Theorem preprocess_needs_one_bitstring self input_bytes channels args (w : world num) v :
  eval (w_graph w) input_bytes = Ret v ->
  nd.num_elements (nd.shape v) <> 1%Z ->
  (forall t w',
      LayerInjector.bitstring_to_uint8_tensor self input_bytes channels args w = (Ret t, w') ->
      eval (w_graph w') t = Raise InvalidArgumentError) /\
  (static_shape (w_graph w) input_bytes <> None ->
   LayerInjector.bitstring_to_uint8_tensor self input_bytes channels args w
   = (Raise ValueError, w)) /\
  (static_shape (w_graph w) input_bytes = None ->
   kind_of v = KString ->
   (0 <= channels)%Z ->
   exists t w',
     LayerInjector.bitstring_to_uint8_tensor self input_bytes channels args w = (Ret t, w') /\
     eval (w_graph w') t = Raise InvalidArgumentError).
Proof.
  intros Hin Hn.
  assert (Hfail : nd.reshape v [] = Raise InvalidArgumentError).
  { unfold nd.reshape, nd.reshape_shape. cbn [existsb filter nd.num_elements fold_right].
    destruct (Z.eqb_spec 1 (nd.num_elements (nd.shape v))) as [E|E]; [|reflexivity].
    exfalso. apply Hn. now rewrite <- E. }
  assert (Hall : forall t w',
             LayerInjector.bitstring_to_uint8_tensor self input_bytes channels args w
             = (Ret t, w') ->
             eval (w_graph w') t = Raise InvalidArgumentError).
  { intros t w' Hrun.
    destruct (preprocess_result self input_bytes channels args w t w' Hrun) as (_ & _ & Hval).
    rewrite Hval, Hin. cbn [outcome_bind]. rewrite Hfail. reflexivity. }
  split; [exact Hall|]. split.
  - intros Hknown.
    unfold LayerInjector.bitstring_to_uint8_tensor.
    erewrite bind_Raise; [reflexivity|].
    rewrite reshape_run, (scalar_buildable _ _ _ Hin).
    destruct (static_shape (w_graph w) input_bytes); [|contradiction].
    destruct (Z.eqb_spec 1 (nd.num_elements (nd.shape v))) as [E|E]; [|reflexivity].
    exfalso. apply Hn. now rewrite <- E.
  - intros Hunknown Hkind Hc.
    destruct (preprocess_returns self input_bytes channels args w) as (t & w' & Hrun).
    { rewrite (scalar_buildable _ _ _ Hin), Hunknown. reflexivity. }
    { now rewrite (static_kind_sound _ _ _ Hin), Hkind. }
    { exact Hc. }
    exists t, w'. split; [exact Hrun | exact (Hall t w' Hrun)].
Qed.

Lemma extends_graph_preprocess self input_bytes channels args :
  extends_graph
    (LayerInjector.bitstring_to_uint8_tensor (num := num) self input_bytes channels args).
Proof.
  unfold LayerInjector.bitstring_to_uint8_tensor.
  apply extends_graph_bind; [apply extends_graph_reshape|]. intros a.
  apply extends_graph_bind; [apply extends_graph_image_decode|]. intros b.
  apply extends_graph_bind; [apply extends_graph_expand_dims|]. intros c.
  apply (extends_graph_pure (Ret c)).
Qed.

End Preprocessing.

(** ** The inference function *)

Section Inference.
Context {num : Type} {NUM : Numeric num} {codec : ImageCodec}.

(** The tensor handed to the model is the input cast to float. *)
Lemma to_float_value x (w : world num) :
  tf.to_float x w
  = (Ret (length (w_graph w)),
     set_graph w ({| node_name := None; node_op := OpCast x DT_FLOAT |} :: w_graph w)) /\
  eval ({| node_name := None; node_op := OpCast x DT_FLOAT |} :: w_graph w)
       (length (w_graph w))
  = outcome_bind (eval (w_graph w) x) (fun v => nd.cast v DT_FLOAT).
Proof. split; [reflexivity | rewrite eval_cons_new; reflexivity]. Qed.

(** A call into the model runs it on the graph and the heap and logs it. *)
Lemma call_model_run {A} ev (m : Py (ServerBuilder.model_state (num := num)) A)
    (w : world num) r st :
  m (w_graph w, w_heap w) = (r, st) ->
  ServerBuilder.call_model ev m w
  = (r, {| w_graph := fst st; w_heap := snd st; w_log := w_log w ++ [ev] |}).
Proof.
  intros H. unfold ServerBuilder.call_model, bind, add_log, modify.
  cbn [w_graph w_heap w_log]. rewrite H. destruct st. reflexivity.
Qed.

(** C5.  The closure casts its input to float, then calls the model's
    [preprocess], [predict] and [postprocess], in that order, each on what
    the stage before left, and nothing else: when the three stages return,
    the closure returns what [postprocess] returned, as it is, the state is
    the one [postprocess] left, and the log has grown by exactly these
    three calls. *)
Theorem inference_wraps_the_three_stages (detection_model : ServerBuilder.DetectionModel num)
    input_tensors (w : world num) p s o r st1 st2 st3 :
  ServerBuilder.preprocess detection_model (length (w_graph w))
    ({| node_name := None; node_op := OpCast input_tensors DT_FLOAT |} :: w_graph w, w_heap w)
    = (Ret (p, s), st1) ->
  ServerBuilder.predict detection_model p s st1 = (Ret o, st2) ->
  ServerBuilder.postprocess detection_model o s st2 = (Ret r, st3) ->
  ServerBuilder.object_detection_inference detection_model input_tensors w
    = (Ret r,
       {| w_graph := fst st3;
          w_heap := snd st3;
          w_log := w_log w ++ [EvModelPreprocess; EvModelPredict; EvModelPostprocess] |}) /\
  eval ({| node_name := None; node_op := OpCast input_tensors DT_FLOAT |} :: w_graph w)
       (length (w_graph w))
  = outcome_bind (eval (w_graph w) input_tensors) (fun v => nd.cast v DT_FLOAT).
Proof.
  intros Hpre Hpred Hpost. split; [|apply to_float_value].
  unfold ServerBuilder.object_detection_inference.
  erewrite bind_Ret by apply to_float_value.
  erewrite bind_Ret by (apply call_model_run; exact Hpre).
  destruct st1 as [g1 h1].
  erewrite bind_Ret by (apply call_model_run; exact Hpred).
  destruct st2 as [g2 h2].
  erewrite bind_Ret by (apply call_model_run; exact Hpost).
  destruct st3 as [g3 h3].
  unfold ret. cbn [fst snd w_log]. rewrite <- !app_assoc. reflexivity.
Qed.

(** A stage that raises ends the closure with that exception; the stages
    after it are not called. *)
Lemma inference_propagates_preprocess_failure
    (detection_model : ServerBuilder.DetectionModel num) input_tensors (w : world num) e st1 :
  ServerBuilder.preprocess detection_model (length (w_graph w))
    ({| node_name := None; node_op := OpCast input_tensors DT_FLOAT |} :: w_graph w, w_heap w)
    = (Raise e, st1) ->
  ServerBuilder.object_detection_inference detection_model input_tensors w
    = (Raise e,
       {| w_graph := fst st1; w_heap := snd st1; w_log := w_log w ++ [EvModelPreprocess] |}).
Proof.
  intros Hpre.
  unfold ServerBuilder.object_detection_inference.
  erewrite bind_Ret by apply to_float_value.
  erewrite bind_Raise by (apply call_model_run; exact Hpre).
  reflexivity.
Qed.

End Inference.

(** ** The inference function: failures, and the cells put together *)

Section Pipeline.
Context {num : Type} {NUM : Numeric num} {codec : ImageCodec}.

(** The closure on stages that return. *)
Lemma inference_returns (detection_model : ServerBuilder.DetectionModel num)
    input_tensors (w : world num) p s o r st1 st2 st3 :
  ServerBuilder.preprocess detection_model (length (w_graph w))
    ({| node_name := None; node_op := OpCast input_tensors DT_FLOAT |} :: w_graph w, w_heap w)
    = (Ret (p, s), st1) ->
  ServerBuilder.predict detection_model p s st1 = (Ret o, st2) ->
  ServerBuilder.postprocess detection_model o s st2 = (Ret r, st3) ->
  ServerBuilder.object_detection_inference detection_model input_tensors w
    = (Ret r,
       {| w_graph := fst st3;
          w_heap := snd st3;
          w_log := w_log w ++ [EvModelPreprocess; EvModelPredict; EvModelPostprocess] |}).
Proof.
  intros Hpre Hpred Hpost.
  unfold ServerBuilder.object_detection_inference.
  erewrite bind_Ret by apply to_float_value.
  erewrite bind_Ret by (apply call_model_run; exact Hpre).
  destruct st1 as [g1 h1].
  erewrite bind_Ret by (apply call_model_run; exact Hpred).
  destruct st2 as [g2 h2].
  erewrite bind_Ret by (apply call_model_run; exact Hpost).
  destruct st3 as [g3 h3].
  unfold ret. cbn [fst snd w_log]. rewrite <- !app_assoc. reflexivity.
Qed.

(** X6.  An exception raised by a stage of the model is the outcome of the
    closure: it is not caught, the state is the one the failing stage left,
    and the log shows the stages up to the failing one and none after it. *)
Theorem inference_stops_at_the_failing_stage
    (detection_model : ServerBuilder.DetectionModel num) input_tensors (w : world num) :
  (forall e st1,
      ServerBuilder.preprocess detection_model (length (w_graph w))
        ({| node_name := None; node_op := OpCast input_tensors DT_FLOAT |} :: w_graph w,
         w_heap w) = (Raise e, st1) ->
      ServerBuilder.object_detection_inference detection_model input_tensors w
      = (Raise e,
         {| w_graph := fst st1; w_heap := snd st1;
            w_log := w_log w ++ [EvModelPreprocess] |})) /\
  (forall p s st1 e st2,
      ServerBuilder.preprocess detection_model (length (w_graph w))
        ({| node_name := None; node_op := OpCast input_tensors DT_FLOAT |} :: w_graph w,
         w_heap w) = (Ret (p, s), st1) ->
      ServerBuilder.predict detection_model p s st1 = (Raise e, st2) ->
      ServerBuilder.object_detection_inference detection_model input_tensors w
      = (Raise e,
         {| w_graph := fst st2; w_heap := snd st2;
            w_log := w_log w ++ [EvModelPreprocess; EvModelPredict] |})) /\
  (forall p s st1 o st2 e st3,
      ServerBuilder.preprocess detection_model (length (w_graph w))
        ({| node_name := None; node_op := OpCast input_tensors DT_FLOAT |} :: w_graph w,
         w_heap w) = (Ret (p, s), st1) ->
      ServerBuilder.predict detection_model p s st1 = (Ret o, st2) ->
      ServerBuilder.postprocess detection_model o s st2 = (Raise e, st3) ->
      ServerBuilder.object_detection_inference detection_model input_tensors w
      = (Raise e,
         {| w_graph := fst st3; w_heap := snd st3;
            w_log := w_log w ++ [EvModelPreprocess; EvModelPredict; EvModelPostprocess] |})).
Proof.
  split; [|split].
  - intros e st1 Hpre.
    unfold ServerBuilder.object_detection_inference.
    erewrite bind_Ret by apply to_float_value.
    erewrite bind_Raise by (apply call_model_run; exact Hpre).
    reflexivity.
  - intros p s st1 e st2 Hpre Hpred.
    unfold ServerBuilder.object_detection_inference.
    erewrite bind_Ret by apply to_float_value.
    erewrite bind_Ret by (apply call_model_run; exact Hpre).
    destruct st1 as [g1 h1].
    erewrite bind_Raise by (apply call_model_run; exact Hpred).
    cbn [fst snd w_log]. rewrite <- !app_assoc. reflexivity.
  - intros p s st1 o st2 e st3 Hpre Hpred Hpost.
    unfold ServerBuilder.object_detection_inference.
    erewrite bind_Ret by apply to_float_value.
    erewrite bind_Ret by (apply call_model_run; exact Hpre).
    destruct st1 as [g1 h1].
    erewrite bind_Ret by (apply call_model_run; exact Hpred).
    destruct st2 as [g2 h2].
    erewrite bind_Raise by (apply call_model_run; exact Hpost).
    cbn [fst snd w_log]. rewrite <- !app_assoc. reflexivity.
Qed.

(** X7.  The closure followed by the postprocessing function, as the
    export chains them: when the model's stages return and the reference
    returned by [postprocess] leads to an output structure of the data
    model, the names returned are the keys of that dictionary, the flag is
    [False], the log holds the three model calls only, the heap is as the
    model left it, and the graph the model left has gained one node per
    key, and two more for "detection_classes". *)
Theorem inference_then_postprocess (detection_model : ServerBuilder.DetectionModel num)
    input_tensors self args (w : world num) p s o r st1 st2 st3 d :
  ServerBuilder.preprocess detection_model (length (w_graph w))
    ({| node_name := None; node_op := OpCast input_tensors DT_FLOAT |} :: w_graph w, w_heap w)
    = (Ret (p, s), st1) ->
  ServerBuilder.predict detection_model p s st1 = (Ret o, st2) ->
  ServerBuilder.postprocess detection_model o s st2 = (Ret r, st3) ->
  nth_error (snd st3) r = Some d ->
  keys_are_names d = true ->
  classes_numeric (fst st3) d = true ->
  exists w' added,
    bind (ServerBuilder.object_detection_inference detection_model input_tensors)
         (fun output => LayerInjector.object_detection_dict_to_tensor_dict self output args) w
    = (Ret (PyDict.keys d, false), w') /\
    w_heap w' = snd st3 /\
    w_log w' = w_log w ++ [EvModelPreprocess; EvModelPredict; EvModelPostprocess] /\
    w_graph w' = added ++ fst st3 /\
    length added
    = length (PyDict.keys d)
      + (if PyDict.mem "detection_classes" (PyDict.keys d) then 2 else 0).
Proof.
  intros Hpre Hpred Hpost Hd Hkeys Hnum.
  erewrite bind_Ret by (eapply inference_returns; eassumption).
  match goal with
  | |- context [LayerInjector.object_detection_dict_to_tensor_dict self r args ?w3] =>
      destruct (postprocess_returns self r args w3 d Hd Hkeys Hnum) as (added & Hrun & Hlen)
  end.
  cbn [w_graph] in Hrun.
  eexists. exists added. split; [exact Hrun|].
  split; [reflexivity|]. split; [reflexivity|]. split; [reflexivity|].
  rewrite Hlen. destruct (PyDict.mem _ _); lia.
Qed.

(** The value of the preprocessing call's tensor on one valid PNG. *)
Lemma preprocess_value_of_png self input_bytes channels args (w : world num) sh s img :
  eval (w_graph w) input_bytes = Ret (VString sh [s]) ->
  nd.num_elements sh = 1%Z ->
  png_parse s = Some img ->
  (channels = 1 \/ channels = 3 \/ channels = 4)%Z ->
  exists t w',
    LayerInjector.bitstring_to_uint8_tensor self input_bytes channels args w = (Ret t, w') /\
    eval (w_graph w') t
    = Ret (VNumeric DT_UINT8
             [1%Z; Z.of_nat (img_height img); Z.of_nat (img_width img); channels]
             (map (num_of_Z DT_UINT8) (img_samples img channels))).
Proof.
  intros Hin Hsh Hp Hc.
  destruct (preprocess_value self input_bytes channels args w _ Hin eq_refl Hsh)
    as (t & w' & Hrun & _ & _ & Hval); [lia|].
  exists t, w'. split; [exact Hrun|].
  rewrite Hval.
  rewrite (reshape_to_scalar sh s Hsh). cbn [outcome_bind].
  rewrite (decode_png_channels s img channels Hp Hc). reflexivity.
Qed.

(** X8.  The preprocessing function followed by the first statement of the
    closure: what the detection model is handed for one valid PNG is the
    batch of one cast to float, of shape [1, height, width, channels]. *)
Theorem preprocess_then_to_float self input_bytes channels args (w : world num) sh s img :
  eval (w_graph w) input_bytes = Ret (VString sh [s]) ->
  nd.num_elements sh = 1%Z ->
  png_parse s = Some img ->
  (channels = 1 \/ channels = 3 \/ channels = 4)%Z ->
  exists inputs w',
    bind (LayerInjector.bitstring_to_uint8_tensor self input_bytes channels args)
         tf.to_float w = (Ret inputs, w') /\
    eval (w_graph w') inputs
    = Ret (VNumeric DT_FLOAT
             [1%Z; Z.of_nat (img_height img); Z.of_nat (img_width img); channels]
             (map (num_cast DT_UINT8 DT_FLOAT)
                (map (num_of_Z DT_UINT8) (img_samples img channels)))).
Proof.
  intros Hin Hsh Hp Hc.
  destruct (preprocess_value_of_png self input_bytes channels args w sh s img Hin Hsh Hp Hc)
    as (t & w1 & Hrun & Hval).
  destruct (to_float_value t w1) as [Hcast Hcastval].
  eexists. eexists. split.
  - erewrite bind_Ret by exact Hrun. exact Hcast.
  - cbn [w_graph set_graph]. rewrite Hcastval, Hval. reflexivity.
Qed.

End Pipeline.

(** ** The client: decoding the input image *)

Section ClientImage.
Context {num : Type} {NUM : Numeric num} {codec : ImageCodec}.

(** [tf.reshape] of an [h] by [w] by 3 array to [s, s, 3] compares element
    counts, and nothing else. *)
Lemma reshape_to_square dt (h w s : Z) (xs : list num) :
  nd.reshape (VNumeric dt [h; w; 3%Z] xs) [s; s; 3%Z]
  = if ((0 <=? s) && (h * w * 3 =? s * s * 3))%Z
    then Ret (VNumeric dt [s; s; 3%Z] xs)
    else Raise InvalidArgumentError.
Proof.
  unfold nd.reshape, nd.reshape_shape.
  cbn [nd.shape nd.num_elements fold_right existsb filter orb].
  replace (3 <? -1)%Z with false by reflexivity.
  replace (3 =? -1)%Z with false by reflexivity.
  rewrite !orb_false_r, orb_diag.
  destruct (Z.ltb_spec s (-1)) as [Hlt|Hge].
  - destruct (Z.leb_spec 0 s); [lia | reflexivity].
  - destruct (Z.eqb_spec s (-1)) as [->|Hne]; [reflexivity|].
    destruct (Z.leb_spec 0 s); [|lia]. cbn [andb].
    destruct (Z.eqb_spec (s * (s * (3 * 1))) (h * (w * (3 * 1)))) as [E|E];
      destruct (Z.eqb_spec (h * w * 3) (s * s * 3)) as [E'|E']; try reflexivity; lia.
Qed.

(** Decoding a JPEG with three channels. *)
Lemma decode_jpeg_rgb (s : string) :
  nd.decode_jpeg (VString [] [s]) 3
  = match jpeg_parse s with
    | Some img =>
        Ret (VNumeric DT_UINT8
               [Z.of_nat (img_height img); Z.of_nat (img_width img); 3%Z]
               (map (num_of_Z DT_UINT8) (img_samples img 3)))
    | None => Raise InvalidArgumentError
    end.
Proof. reflexivity. Qed.

(** A square of a size below -1 is refused by shape inference, any other
    is let through, the size of the decoded picture being unknown before
    the run. *)
Lemma square_buildable (s : Z) :
  tf.reshape_buildable None [s; s; 3%Z] = negb (s <? -1)%Z.
Proof.
  unfold tf.reshape_buildable. cbn [existsb].
  replace (3 <? -1)%Z with false by reflexivity.
  rewrite !orb_false_r, orb_diag.
  now destruct (negb (s <? -1)%Z).
Qed.

(** With an [image_size] of -1 or more the helper returns: it has added
    the constant of the bytes and three operations, and the tensor it
    returns is the decoded JPEG, as three channels, reshaped to the
    configured square. *)
Lemma client_image_value self input_bytes (w : world num) :
  (-1 <= ObjectDetectionClient.image_size self)%Z ->
  exists t w',
    ObjectDetectionClient.bitstring_to_uint8_tensor self input_bytes w = (Ret t, w') /\
    w_heap w' = w_heap w /\ w_log w' = w_log w /\
    eval (w_graph w') t =
    outcome_bind (nd.decode_jpeg (VString [] [input_bytes]) 3)
      (fun v => nd.reshape v [ObjectDetectionClient.image_size self;
                              ObjectDetectionClient.image_size self; 3%Z]).
Proof.
  intros Hs.
  unfold ObjectDetectionClient.bitstring_to_uint8_tensor, tf.constant, tf.image_decode_jpeg.
  erewrite bind_Ret by reflexivity.
  erewrite bind_Ret.
  2:{ rewrite reshape_run. cbn [w_graph set_graph].
      rewrite static_shape_cons_new. reflexivity. }
  cbn [w_graph set_graph].
  erewrite bind_Ret.
  2:{ rewrite image_decode_run. cbn [w_graph set_graph].
      rewrite static_kind_cons_at, static_shape_cons_at by reflexivity.
      cbn [node_op static_op_kind static_op_shape].
      rewrite static_kind_cons_new, static_shape_cons_new. reflexivity. }
  cbn [w_graph set_graph].
  erewrite bind_Ret.
  2:{ rewrite reshape_run. cbn [w_graph set_graph].
      rewrite static_shape_cons_at by reflexivity. cbn [node_op static_op_shape].
      rewrite square_buildable.
      destruct (Z.ltb_spec (ObjectDetectionClient.image_size self) (-1)); [lia | reflexivity]. }
  eexists. eexists. split; [reflexivity|]. split; [reflexivity|]. split; [reflexivity|].
  cbn [w_graph set_graph].
  rewrite eval_cons_at by reflexivity. cbn [node_op apply_op].
  rewrite eval_cons_at by reflexivity. cbn [node_op apply_op].
  rewrite eval_cons_at by reflexivity. cbn [node_op apply_op].
  rewrite eval_cons_new. cbn [node_op apply_op outcome_bind].
  rewrite (reshape_to_scalar [] input_bytes eq_refl). reflexivity.
Qed.

(** With an [image_size] below -1 the helper raises ValueError at the
    final reshape, while the graph is built. *)
Lemma client_image_refused self input_bytes (w : world num) :
  (ObjectDetectionClient.image_size self < -1)%Z ->
  result_of (ObjectDetectionClient.bitstring_to_uint8_tensor self input_bytes w)
  = Raise ValueError.
Proof.
  intros Hs.
  unfold ObjectDetectionClient.bitstring_to_uint8_tensor, tf.constant, tf.image_decode_jpeg.
  erewrite bind_Ret by reflexivity.
  erewrite bind_Ret.
  2:{ rewrite reshape_run. cbn [w_graph set_graph].
      rewrite static_shape_cons_new. reflexivity. }
  cbn [w_graph set_graph].
  erewrite bind_Ret.
  2:{ rewrite image_decode_run. cbn [w_graph set_graph].
      rewrite static_kind_cons_at, static_shape_cons_at by reflexivity.
      cbn [node_op static_op_kind static_op_shape].
      rewrite static_kind_cons_new, static_shape_cons_new. reflexivity. }
  cbn [w_graph set_graph].
  erewrite bind_Raise; [reflexivity|].
  rewrite reshape_run. cbn [w_graph set_graph].
  rewrite static_shape_cons_at by reflexivity. cbn [node_op static_op_shape].
  rewrite square_buildable.
  destruct (Z.ltb_spec (ObjectDetectionClient.image_size self) (-1)); [reflexivity | lia].
Qed.

Lemma extends_graph_client_image self input_bytes :
  extends_graph
    (ObjectDetectionClient.bitstring_to_uint8_tensor (num := num) self input_bytes).
Proof.
  unfold ObjectDetectionClient.bitstring_to_uint8_tensor.
  apply extends_graph_bind; [apply extends_graph_add_node|]. intros a.
  apply extends_graph_bind; [apply extends_graph_reshape|]. intros b.
  apply extends_graph_bind; [apply extends_graph_image_decode|]. intros c.
  apply extends_graph_bind; [apply extends_graph_reshape|]. intros d.
  apply (extends_graph_pure (Ret d)).
Qed.

(** C8, as the code has it.  With an [image_size] below -1 the helper
    raises ValueError.  Otherwise it returns a tensor, and that tensor has
    a value exactly when the bytes decode as a JPEG, [image_size] is not
    negative, and the decoded element count [height * width * 3] equals
    [image_size * image_size * 3]; the value then has shape
    [image_size, image_size, 3].  Whenever the decoded element count
    differs from [image_size * image_size * 3], the final reshape fails.
    Height and width themselves are not compared. *)
Theorem client_image_needs_the_element_count self input_bytes (w : world num) :
  ((ObjectDetectionClient.image_size self < -1)%Z ->
   result_of (ObjectDetectionClient.bitstring_to_uint8_tensor self input_bytes w)
   = Raise ValueError) /\
  ((-1 <= ObjectDetectionClient.image_size self)%Z ->
   exists t w',
     ObjectDetectionClient.bitstring_to_uint8_tensor self input_bytes w = (Ret t, w') /\
     ((exists v, eval (w_graph w') t = Ret v) <->
      (exists img, jpeg_parse input_bytes = Some img /\
         (0 <= ObjectDetectionClient.image_size self)%Z /\
         (Z.of_nat (img_height img) * Z.of_nat (img_width img) * 3
          = ObjectDetectionClient.image_size self * ObjectDetectionClient.image_size self * 3)%Z)) /\
     (forall v, eval (w_graph w') t = Ret v ->
        nd.shape v = [ObjectDetectionClient.image_size self;
                      ObjectDetectionClient.image_size self; 3%Z]) /\
     (forall img, jpeg_parse input_bytes = Some img ->
        (Z.of_nat (img_height img) * Z.of_nat (img_width img) * 3
         <> ObjectDetectionClient.image_size self * ObjectDetectionClient.image_size self * 3)%Z ->
        eval (w_graph w') t = Raise InvalidArgumentError)).
Proof.
  split; [apply client_image_refused|]. intros Hbuilt.
  destruct (client_image_value self input_bytes w Hbuilt) as (t & w' & Hrun & _ & _ & Hval).
  exists t, w'. split; [exact Hrun|].
  rewrite Hval, decode_jpeg_rgb. clear Hval Hrun.
  set (s := ObjectDetectionClient.image_size self) in *.
  destruct (jpeg_parse input_bytes) as [img|]; cbn [outcome_bind].
  - rewrite reshape_to_square.
    destruct (Z.leb_spec 0 s) as [Hs|Hs]; cbn [andb].
    + destruct (Z.eqb_spec (Z.of_nat (img_height img) * Z.of_nat (img_width img) * 3)
                           (s * s * 3)) as [E|E].
      * split; [|split].
        -- split; [intros _; exists img; auto | intros _; eexists; reflexivity].
        -- intros v [= <-]. reflexivity.
        -- intros img' [= <-] Hne. contradiction.
      * split; [|split].
        -- split; [intros [v Hv]; discriminate | intros (img' & [= <-] & _ & E'); contradiction].
        -- intros v Hv. discriminate.
        -- reflexivity.
    + split; [|split].
      * split; [intros [v Hv]; discriminate | intros (img' & _ & Hs' & _); lia].
      * intros v Hv. discriminate.
      * reflexivity.
  - split; [|split].
    + split; [intros [v Hv]; discriminate | intros (img & Himg & _); discriminate].
    + intros v Hv. discriminate.
    + intros img Himg. discriminate.
Qed.

End ClientImage.

(** The claim C8 as stated, that the helper's tensor has a value only for
    pictures of [image_size] by [image_size], fails: a picture of 2 by 8
    pixels passes a client configured for 4 by 4, its 48 samples being
    taken as 4 rows of 4 pixels. *)
Lemma client_accepts_a_wide_image :
  ~ (forall (codec : ImageCodec) (self : ObjectDetectionClient.t) (input_bytes : string)
            (w : world Z) img t w' v,
        jpeg_parse input_bytes = Some img ->
        ObjectDetectionClient.bitstring_to_uint8_tensor self input_bytes w = (Ret t, w') ->
        eval (NUM := Z_numeric) (w_graph w') t = Ret v ->
        Z.of_nat (img_height img) = ObjectDetectionClient.image_size self /\
        Z.of_nat (img_width img) = ObjectDetectionClient.image_size self).
Proof.
  intros H.
  destruct (H toy_codec toy_client "wide-2x8.jpg" empty_world (blank_image 2 8 3)
              3 _ (VNumeric DT_UINT8 [4; 4; 3]%Z (repeat 0%Z 48))
              eq_refl eq_refl eq_refl) as [Hh _].
  discriminate Hh.
Qed.

(** ** The client: label map loads *)

Lemma count_loads_app l1 l2 :
  ObjectDetectionClient.count_loads (l1 ++ l2)
  = ObjectDetectionClient.count_loads l1 + ObjectDetectionClient.count_loads l2.
Proof.
  induction l1 as [|ev l1 IH]; simpl; [reflexivity|].
  destruct ev; simpl; rewrite IH; reflexivity.
Qed.

Section ClientLoads.
Context {num : Type} {NUM : Numeric num} {codec : ImageCodec}.
Variable utils : ObjectDetectionClient.Utils num.

Import ObjectDetectionClient.

Lemma adds_loads_bind {A B} a b (m : Py (world num) A) (k : A -> Py (world num) B) :
  adds_loads a m -> (forall x, adds_loads b (k x)) -> adds_loads (a + b) (bind m k).
Proof.
  intros Hm Hk w. specialize (Hm w). unfold bind.
  destruct (m w) as [[x|e] w1]; cbn [state_of result_of fst snd] in *.
  - destruct Hm as [_ Hm]. specialize (Hm x eq_refl). specialize (Hk x w1).
    rewrite Hm in Hk. destruct Hk as [Hle Heq]. split.
    + lia.
    + intros y Hy. rewrite (Heq y Hy). lia.
  - split; [lia | intros y Hy; discriminate Hy].
Qed.

Lemma adds_loads_pure {A} (r : outcome A) :
  adds_loads 0 (fun w : world num => (r, w)).
Proof. intros w. cbn. split; [lia | intros; lia]. Qed.

Lemma adds_loads_gets {A} (f : world num -> A) : adds_loads 0 (gets f).
Proof. intros w. cbn. split; [lia | intros; lia]. Qed.

Lemma adds_loads_log ev :
  adds_loads (num := num) (count_loads [ev]) (add_log ev).
Proof.
  intros w. unfold add_log, modify. cbn [state_of result_of fst snd w_log].
  rewrite count_loads_app. split; [lia | intros; lia].
Qed.

Lemma adds_loads_getitem {V} (d : PyDict.t V) k :
  adds_loads (num := num) 0 (getitem d k).
Proof.
  unfold getitem, from_option. destruct (PyDict.get d k); apply adds_loads_pure.
Qed.

Lemma adds_loads_image self input_bytes :
  adds_loads (num := num) 0 (bitstring_to_uint8_tensor self input_bytes).
Proof.
  intros w.
  destruct (extends_graph_client_image self input_bytes w) as [added Hst].
  rewrite Hst. cbn [w_log set_graph].
  split; [lia | intros; lia].
Qed.

Lemma adds_loads_session_eval x :
  adds_loads (num := num) 0 (tf.session_eval x).
Proof.
  unfold tf.session_eval.
  apply (adds_loads_bind 0 0); [apply (adds_loads_log EvSessionRun)|]. intros _.
  apply (adds_loads_bind 0 0); [apply adds_loads_gets|]. intros g.
  apply adds_loads_pure.
Qed.

(** [get_category_index] loads the label map each time it is called, and
    keeps nothing. *)
Lemma adds_loads_get_category_index self :
  adds_loads 1 (get_category_index utils self).
Proof.
  unfold get_category_index.
  apply (adds_loads_bind 1 0); [apply (adds_loads_log (EvLoadLabelmap _))|]. intros _.
  apply (adds_loads_bind 0 0); [apply adds_loads_pure|]. intros label_map.
  apply adds_loads_pure.
Qed.

(** One call of [visualize] loads the label map once when it returns, and
    at most once when it raises. *)
Lemma adds_loads_visualize self input_image response i :
  adds_loads 1 (visualize utils self input_image response i).
Proof.
  unfold visualize.
  apply (adds_loads_bind 0 1); [apply adds_loads_getitem|]. intros detection_boxes.
  apply (adds_loads_bind 0 1); [apply adds_loads_getitem|]. intros detection_classes.
  apply (adds_loads_bind 0 1); [apply adds_loads_getitem|]. intros detection_scores.
  apply (adds_loads_bind 0 1); [apply adds_loads_image|]. intros image_tensor.
  apply (adds_loads_bind 0 1); [apply adds_loads_session_eval|]. intros image.
  apply (adds_loads_bind 0 1); [apply adds_loads_pure|]. intros boxes.
  apply (adds_loads_bind 0 1); [apply adds_loads_pure|]. intros classes.
  apply (adds_loads_bind 0 1); [apply adds_loads_pure|]. intros scores.
  apply (adds_loads_bind 1 0); [apply adds_loads_get_category_index|]. intros category_index.
  apply (adds_loads_bind 0 0); [apply (adds_loads_log EvDrawBoxes)|]. intros _.
  apply (adds_loads_bind 0 0); [apply adds_loads_pure|]. intros image'.
  apply (adds_loads_bind 0 0); [apply (adds_loads_log (EvSaveImage _))|]. intros _.
  apply adds_loads_pure.
Qed.

(** A run of [n] calls adds [n] loads when every call returns, and at most
    [n] otherwise. *)
Lemma adds_loads_lifetime self calls :
  adds_loads (length calls) (lifetime utils self calls).
Proof.
  unfold lifetime.
  generalize tt as u.
  induction calls as [|[[input_image response] i] calls IH]; intros u.
  - apply adds_loads_pure.
  - cbn [py_for length].
    apply (adds_loads_bind 1 (length calls)); [apply adds_loads_visualize|].
    intros u'. apply IH.
Qed.

(** C6, as the code has it.  Nothing is held on the client between calls:
    every call of [visualize] that returns has loaded the label map and
    built the category index anew, so a client whose [n] visualization
    calls all return has loaded the label map [n] times. *)
Theorem label_map_loaded_by_every_visualize self calls (w w' : world num) :
  lifetime utils self calls w = (Ret tt, w') ->
  count_loads (w_log w') = count_loads (w_log w) + length calls.
Proof.
  intros Hrun.
  destruct (adds_loads_lifetime self calls w) as [_ Heq].
  rewrite Hrun in Heq. exact (Heq tt eq_refl).
Qed.

(** Over any run, returning or not, the loads are at most one per call. *)
Lemma label_map_loads_bounded self calls (w : world num) :
  count_loads (w_log (state_of (lifetime utils self calls w)))
  <= count_loads (w_log w) + length calls.
Proof. apply adds_loads_lifetime. Qed.

End ClientLoads.

(** Two visualization calls of one client, both returning. *)
Lemma label_map_loaded_by_every_visualize_run :
  ObjectDetectionClient.lifetime (NUM := Z_numeric) (codec := toy_codec) toy_utils toy_client
    [("square-4x4.jpg", toy_response, 0%Z); ("square-4x4.jpg", toy_response, 1%Z)]
    empty_world
  = (Ret tt,
     state_of
       (ObjectDetectionClient.lifetime (NUM := Z_numeric) (codec := toy_codec)
          toy_utils toy_client
          [("square-4x4.jpg", toy_response, 0%Z); ("square-4x4.jpg", toy_response, 1%Z)]
          empty_world)) /\
  ObjectDetectionClient.count_loads
    (w_log
       (state_of
          (ObjectDetectionClient.lifetime (NUM := Z_numeric) (codec := toy_codec)
             toy_utils toy_client
             [("square-4x4.jpg", toy_response, 0%Z); ("square-4x4.jpg", toy_response, 1%Z)]
             empty_world)))
  = ObjectDetectionClient.count_loads (w_log empty_world) + 2.
Proof.
  split; [reflexivity|].
  exact (label_map_loaded_by_every_visualize (NUM := Z_numeric) (codec := toy_codec)
           toy_utils toy_client
           [("square-4x4.jpg", toy_response, 0%Z); ("square-4x4.jpg", toy_response, 1%Z)]
           empty_world _ eq_refl).
Defined.

(** The claim C6 as stated, that a client loads the label map at most once
    over its lifetime, fails: two visualization calls load it twice. *)
Lemma label_map_loaded_twice :
  ~ (forall (utils : ObjectDetectionClient.Utils Z) (self : ObjectDetectionClient.t)
            (calls : list (ObjectDetectionClient.visualize_call utils)) (w : world Z),
        ObjectDetectionClient.count_loads
          (w_log (state_of (ObjectDetectionClient.lifetime
                              (NUM := Z_numeric) (codec := toy_codec) utils self calls w)))
        <= ObjectDetectionClient.count_loads (w_log w) + 1).
Proof.
  intros H.
  specialize (H toy_utils toy_client
                [("square-4x4.jpg", toy_response, 0%Z); ("square-4x4.jpg", toy_response, 1%Z)]
                empty_world).
  vm_compute in H. lia.
Qed.

(** ** The client: what [visualize] does outside the interpreter, and when *)

Lemma session_eval_run {num : Type} {NUM : Numeric num} {codec : ImageCodec}
    x (w : world num) :
  tf.session_eval x w
  = (eval (w_graph w) x,
     {| w_graph := w_graph w; w_heap := w_heap w; w_log := w_log w ++ [EvSessionRun] |}).
Proof. reflexivity. Qed.

Section ClientTrace.
Context {num : Type} {NUM : Numeric num} {codec : ImageCodec}.
Variable utils : ObjectDetectionClient.Utils num.

Import ObjectDetectionClient.

Lemma logs_within_bind {A B} e1 e2 (m : Py (world num) A) (k : A -> Py (world num) B) :
  logs_within e1 m -> (forall x, logs_within e2 (k x)) -> logs_within (e1 ++ e2) (bind m k).
Proof.
  intros Hm Hk w. destruct (Hm w) as [[n Hn] Hret]. unfold bind.
  destruct (m w) as [[x|e] w1]; cbn [state_of result_of fst snd] in *.
  - specialize (Hret x eq_refl). destruct (Hk x w1) as [[n2 Hn2] Hret2]. split.
    + exists (length e1 + n2). rewrite Hn2, Hret, firstn_app_2. now rewrite app_assoc.
    + intros a Ha. rewrite (Hret2 a Ha), Hret. now rewrite app_assoc.
  - split; [|intros a Ha; discriminate Ha].
    exists (Nat.min n (length e1)). rewrite Hn. f_equal.
    rewrite firstn_app.
    replace (Nat.min n (length e1) - length e1) with 0 by lia.
    cbn [firstn]. rewrite app_nil_r.
    destruct (Nat.le_gt_cases n (length e1)) as [Hle|Hgt].
    + now rewrite Nat.min_l.
    + rewrite Nat.min_r by lia. rewrite firstn_all. apply firstn_all2. lia.
Qed.

Lemma logs_within_pure {A} (r : outcome A) :
  logs_within [] (fun w : world num => (r, w)).
Proof.
  intros w. cbn. split; [exists 0|intros]; now rewrite app_nil_r.
Qed.

Lemma logs_within_gets {A} (f : world num -> A) : logs_within [] (gets f).
Proof.
  intros w. cbn. split; [exists 0|intros]; now rewrite app_nil_r.
Qed.

Lemma logs_within_log ev : logs_within (num := num) [ev] (add_log ev).
Proof.
  intros w. unfold add_log, modify. cbn [state_of result_of fst snd w_log].
  split; [exists 1|intros]; reflexivity.
Qed.

Lemma logs_within_getitem {V} (d : PyDict.t V) k :
  logs_within (num := num) [] (getitem d k).
Proof.
  unfold getitem, from_option. destruct (PyDict.get d k); apply logs_within_pure.
Qed.

Lemma logs_within_image self input_bytes :
  logs_within (num := num) [] (bitstring_to_uint8_tensor self input_bytes).
Proof.
  intros w.
  destruct (extends_graph_client_image self input_bytes w) as [added Hst].
  rewrite Hst. cbn [w_log set_graph].
  split; [exists 0|intros]; now rewrite app_nil_r.
Qed.

Lemma logs_within_session_eval x :
  logs_within (num := num) [EvSessionRun] (tf.session_eval x).
Proof.
  unfold tf.session_eval.
  apply (logs_within_bind [EvSessionRun] []); [apply logs_within_log|]. intros _.
  apply (logs_within_bind [] []); [apply logs_within_gets|]. intros g.
  apply logs_within_pure.
Qed.

Lemma logs_within_get_category_index self :
  logs_within [EvLoadLabelmap (label_path self)] (get_category_index utils self).
Proof.
  unfold get_category_index.
  apply (logs_within_bind [EvLoadLabelmap (label_path self)] []);
    [apply logs_within_log|]. intros _.
  apply (logs_within_bind [] []); [apply logs_within_pure|]. intros label_map.
  apply logs_within_pure.
Qed.

Lemma logs_within_visualize self input_image response i :
  logs_within
    [EvSessionRun; EvLoadLabelmap (label_path self); EvDrawBoxes;
     EvSaveImage (output_file self i)]
    (visualize utils self input_image response i).
Proof.
  unfold visualize.
  apply (logs_within_bind [] [_; _; _; _]); [apply logs_within_getitem|]. intros boxes.
  apply (logs_within_bind [] [_; _; _; _]); [apply logs_within_getitem|]. intros classes.
  apply (logs_within_bind [] [_; _; _; _]); [apply logs_within_getitem|]. intros scores.
  apply (logs_within_bind [] [_; _; _; _]); [apply logs_within_image|]. intros t.
  apply (logs_within_bind [_] [_; _; _]); [apply logs_within_session_eval|]. intros image.
  apply (logs_within_bind [] [_; _; _]); [apply logs_within_pure|]. intros b.
  apply (logs_within_bind [] [_; _; _]); [apply logs_within_pure|]. intros c.
  apply (logs_within_bind [] [_; _; _]); [apply logs_within_pure|]. intros s.
  apply (logs_within_bind [_] [_; _]); [apply logs_within_get_category_index|].
  intros category_index.
  apply (logs_within_bind [_] [_]); [apply logs_within_log|]. intros _.
  apply (logs_within_bind [] [_]); [apply logs_within_pure|]. intros image'.
  apply (logs_within_bind [_] []); [apply (logs_within_log (EvSaveImage _))|]. intros _.
  apply logs_within_pure.
Qed.

(** X11.  What a call of [visualize] does outside the interpreter is, in
    this order: run the session, load the label map at [label_path], draw,
    and save to [output_dir/images/<output_filename><i><output_extension>].
    A call that returns has done all four, once each; a call that raises
    has done the first few of them, so nothing is drawn before the label
    map is loaded and nothing is saved before the drawing. *)
Theorem visualize_log_order self input_image response i (w : world num) :
  (exists n,
      w_log (state_of (visualize utils self input_image response i w))
      = w_log w
        ++ firstn n [EvSessionRun; EvLoadLabelmap (label_path self); EvDrawBoxes;
                     EvSaveImage (output_file self i)]) /\
  (result_of (visualize utils self input_image response i w) = Ret tt ->
   w_log (state_of (visualize utils self input_image response i w))
   = w_log w
     ++ [EvSessionRun; EvLoadLabelmap (label_path self); EvDrawBoxes;
         EvSaveImage (output_file self i)]).
Proof.
  destruct (logs_within_visualize self input_image response i w) as [Hprefix Hret].
  split; [exact Hprefix | exact (Hret tt)].
Qed.

(** X9.  A response without one of "detection_boxes", "detection_classes",
    "detection_scores" makes [visualize] raise KeyError for the first one
    missing, in that order, before anything else happens: the graph, the
    heap and the log are as they were. *)
Theorem visualize_missing_key_raises self input_image response i (w : world num) k :
  find (fun k => negb (PyDict.mem k (PyDict.keys response)))
       ["detection_boxes"; "detection_classes"; "detection_scores"] = Some k ->
  visualize utils self input_image response i w = (Raise (KeyError k), w).
Proof.
  cbn [find]. unfold visualize, getitem.
  destruct (PyDict.mem "detection_boxes" (PyDict.keys response)) eqn:Hb; cbn [negb].
  - destruct (PyDict_mem_get _ _ Hb) as [vb Hvb]. rewrite Hvb.
    destruct (PyDict.mem "detection_classes" (PyDict.keys response)) eqn:Hc; cbn [negb].
    + destruct (PyDict_mem_get _ _ Hc) as [vc Hvc]. rewrite Hvc.
      destruct (PyDict.mem "detection_scores" (PyDict.keys response)) eqn:Hs; cbn [negb].
      * discriminate.
      * intros [= <-]. rewrite (PyDict_not_mem_get _ _ Hs). reflexivity.
    + intros [= <-]. rewrite (PyDict_not_mem_get _ _ Hc). reflexivity.
  - intros [= <-]. rewrite (PyDict_not_mem_get _ _ Hb). reflexivity.
Qed.

(** X10.  With an [image_size] that is not negative, when the bytes are
    no JPEG, or decode to a picture whose element count is not
    [image_size * image_size * 3], [visualize] raises InvalidArgumentError
    out of the session run: the label map is not loaded, nothing is drawn
    and nothing is saved. *)
Theorem visualize_bad_image_stops_early self input_image response i (w : world num)
    boxes classes scores :
  PyDict.get response "detection_boxes" = Some boxes ->
  PyDict.get response "detection_classes" = Some classes ->
  PyDict.get response "detection_scores" = Some scores ->
  (0 <= image_size self)%Z ->
  (forall img, jpeg_parse input_image = Some img ->
     (Z.of_nat (img_height img) * Z.of_nat (img_width img) * 3
      <> image_size self * image_size self * 3)%Z) ->
  exists w',
    visualize utils self input_image response i w = (Raise InvalidArgumentError, w') /\
    w_log w' = w_log w ++ [EvSessionRun] /\
    w_heap w' = w_heap w.
Proof.
  intros Hb Hc Hs Hsize Hbad.
  unfold visualize, getitem. rewrite Hb, Hc, Hs. cbn [from_option].
  erewrite bind_Ret by reflexivity.
  erewrite bind_Ret by reflexivity.
  erewrite bind_Ret by reflexivity.
  destruct (client_image_value self input_image w) as (t & w1 & Hrun & Hheap & Hlog & Hval);
    [lia|].
  erewrite bind_Ret by exact Hrun.
  assert (Hraise : eval (w_graph w1) t = Raise InvalidArgumentError).
  { rewrite Hval, decode_jpeg_rgb.
    destruct (jpeg_parse input_image) as [img|]; [|reflexivity].
    cbn [outcome_bind]. rewrite reshape_to_square.
    destruct (Z.eqb_spec (Z.of_nat (img_height img) * Z.of_nat (img_width img) * 3)
                         (image_size self * image_size self * 3)) as [E|_];
      [now apply Hbad in E | now rewrite andb_false_r]. }
  erewrite bind_Raise by (rewrite session_eval_run, Hraise; reflexivity).
  eexists. split; [reflexivity|]. cbn [w_log w_heap]. rewrite Hlog, Hheap. auto.
Qed.

(** X15.  With an [image_size] below -1, [visualize] raises ValueError
    while its helper builds the graph: no session is run, the label map is
    not loaded, nothing is drawn and nothing is saved. *)
Theorem visualize_refused_before_the_run self input_image response i (w : world num)
    boxes classes scores :
  PyDict.get response "detection_boxes" = Some boxes ->
  PyDict.get response "detection_classes" = Some classes ->
  PyDict.get response "detection_scores" = Some scores ->
  (image_size self < -1)%Z ->
  result_of (visualize utils self input_image response i w) = Raise ValueError /\
  w_log (state_of (visualize utils self input_image response i w)) = w_log w /\
  w_heap (state_of (visualize utils self input_image response i w)) = w_heap w.
Proof.
  intros Hb Hc Hs Hsize.
  unfold visualize, getitem. rewrite Hb, Hc, Hs. cbn [from_option].
  erewrite bind_Ret by reflexivity.
  erewrite bind_Ret by reflexivity.
  erewrite bind_Ret by reflexivity.
  pose proof (client_image_refused self input_image w Hsize) as Hres.
  destruct (extends_graph_client_image self input_image w) as [added Hst].
  destruct (bitstring_to_uint8_tensor self input_image w) as [[a|e] w1] eqn:Hrun;
    [discriminate Hres|].
  cbn [result_of state_of fst snd] in Hres, Hst. injection Hres as ->. subst w1.
  erewrite bind_Raise by exact Hrun.
  cbn [result_of state_of fst snd w_log w_heap set_graph]. auto.
Qed.

End ClientTrace.

(** ** The client: names of the saved files *)

Lemma string_append_length (a b : string) :
  String.length (a ++ b) = String.length a + String.length b.
Proof. induction a as [|c a IH]; simpl; [reflexivity | now rewrite IH]. Qed.

Lemma string_append_cancel_l (a b c : string) :
  (a ++ b = a ++ c)%string -> b = c.
Proof. induction a as [|x a IH]; simpl; [auto | intros [= H]; auto]. Qed.

Lemma string_append_cancel_r (c : string) : forall a b : string,
  (a ++ c = b ++ c)%string -> a = b.
Proof.
  induction a as [|x a IH]; intros [|y b] H; simpl in H.
  - reflexivity.
  - apply (f_equal String.length) in H. simpl in H.
    rewrite string_append_length in H. lia.
  - apply (f_equal String.length) in H. simpl in H.
    rewrite string_append_length in H. lia.
  - injection H as -> H. f_equal. now apply IH.
Qed.

(** [str] writes different integers differently. *)
Lemma str_injective i j :
  ObjectDetectionClient.str i = ObjectDetectionClient.str j -> i = j.
Proof.
  unfold ObjectDetectionClient.str. intros H.
  assert (Hnil : forall z, Z.to_int z <> Decimal.Pos Decimal.Nil
                           /\ Z.to_int z <> Decimal.Neg Decimal.Nil).
  { intros [|p|p]; simpl; split; intros [= E]; try discriminate;
      exact (Unsigned.to_uint_nonnil p E). }
  apply (f_equal NilZero.int_of_string) in H.
  rewrite !NilZero.isi in H by apply Hnil.
  injection H as H. now apply DecimalZ.to_int_inj.
Qed.

(** X12.  Images with different indices are saved to different files: the
    path [visualize] saves to determines the index. *)
Theorem output_files_differ (self : ObjectDetectionClient.t) (i j : Z) :
  i <> j ->
  ObjectDetectionClient.output_file self i <> ObjectDetectionClient.output_file self j.
Proof.
  intros Hij H. apply Hij. unfold ObjectDetectionClient.output_file in H.
  apply string_append_cancel_l in H.
  apply string_append_cancel_l in H.
  apply string_append_cancel_l in H.
  apply string_append_cancel_r in H.
  now apply str_injective.
Qed.

(* ================================================================== *)
(** * Runs *)

(** ** The postprocessing call on the detector's dictionary *)


Lemma output_node_names_are_the_keys_run :
  nth_error (w_heap detector_world) 0 = Some detector_dict /\
  keys_are_names detector_dict = true /\
  classes_numeric (w_graph detector_world) detector_dict = true /\
  (forall names flag w',
      LayerInjector.object_detection_dict_to_tensor_dict (NUM := Z_numeric)
        LayerInjector.instance 0 [] detector_world = (Ret (names, flag), w') ->
      names = ["detection_boxes"; "detection_scores"; "detection_classes"]) /\
  NoDup ["detection_boxes"; "detection_scores"; "detection_classes"] /\
  (forall k, In k ["detection_boxes"; "detection_scores"; "detection_classes"]
             <-> exists t, PyDict.get detector_dict k = Some t) /\
  exists flag w',
    LayerInjector.object_detection_dict_to_tensor_dict (NUM := Z_numeric)
      LayerInjector.instance 0 [] detector_world
    = (Ret (["detection_boxes"; "detection_scores"; "detection_classes"], flag), w').
Proof.
  destruct (output_node_names_are_the_keys (NUM := Z_numeric) LayerInjector.instance 0 []
              detector_world detector_dict eq_refl) as (Hnames & Hnodup & Hkeys & Hruns).
  split; [reflexivity|]. split; [reflexivity|]. split; [reflexivity|].
  split; [exact Hnames|]. split; [exact Hnodup|]. split; [exact Hkeys|].
  exact (Hruns eq_refl eq_refl).
Defined.

Lemma output_as_image_is_false_run :
  nth_error (w_heap detector_world) 0 = Some detector_dict /\
  keys_are_names detector_dict = true /\
  classes_numeric (w_graph detector_world) detector_dict = true /\
  (forall names flag w',
      LayerInjector.object_detection_dict_to_tensor_dict (NUM := Z_numeric)
        LayerInjector.instance 0 [] detector_world = (Ret (names, flag), w') ->
      flag = false) /\
  exists names w',
    LayerInjector.object_detection_dict_to_tensor_dict (NUM := Z_numeric)
      LayerInjector.instance 0 [] detector_world = (Ret (names, false), w').
Proof.
  destruct (output_as_image_is_false (NUM := Z_numeric) LayerInjector.instance 0 []
              detector_world detector_dict eq_refl) as (Hflag & Hruns).
  split; [reflexivity|]. split; [reflexivity|]. split; [reflexivity|].
  split; [exact Hflag|].
  exact (Hruns eq_refl eq_refl).
Defined.


Lemma postprocess_adds_one_node_per_key_run :
  nth_error (w_heap detector_world) 0 = Some detector_dict /\
  keys_are_names detector_dict = true /\
  classes_numeric (w_graph detector_world) detector_dict = true /\
  exists out w' added,
    LayerInjector.object_detection_dict_to_tensor_dict (NUM := Z_numeric)
      LayerInjector.instance 0 [] detector_world = (Ret out, w') /\
    w_heap w' = [detector_dict] /\
    w_log w' = [] /\
    w_graph w' = added ++ detector_graph /\
    length added = 3 + 2 /\
    (PyDict.keys detector_dict = [] -> out = ([], false) /\ w' = detector_world).
Proof.
  repeat split.
  exact (postprocess_adds_one_node_per_key (NUM := Z_numeric) LayerInjector.instance 0 []
           detector_world detector_dict eq_refl eq_refl eq_refl).
Defined.

(** A detector whose class output is already called "detection_classes":
    the call names its own tensor "detection_classes_1", and the name it
    returns still leads to the detector's tensor, without the offset. *)
Example postprocess_name_taken :
  let r := LayerInjector.object_detection_dict_to_tensor_dict (NUM := Z_numeric)
             LayerInjector.instance 0 [] named_detector_world in
  result_of r = Ret (["detection_classes"], false) /\
  named (w_graph (state_of r)) "detection_classes" = [0] /\
  eval (NUM := Z_numeric) (codec := toy_codec) (w_graph (state_of r)) 0
    = Ret (VNumeric DT_INT64 [1; 2]%Z [0; 4]%Z) /\
  named (w_graph (state_of r)) "detection_classes_1" = [3] /\
  eval (NUM := Z_numeric) (codec := toy_codec) (w_graph (state_of r)) 3
    = Ret (VNumeric DT_INT64 [1; 2]%Z [1; 5]%Z).
Proof. repeat split. Qed.

(** Class ids that are strings: the addition is refused. *)
Example postprocess_string_classes :
  result_of (LayerInjector.object_detection_dict_to_tensor_dict (NUM := Z_numeric)
               LayerInjector.instance 0 [] label_detector_world)
  = Raise TypeError.
Proof. reflexivity. Qed.


Lemma postprocess_refuses_string_classes_run :
  nth_error (w_heap label_detector_world) 0
  = Some (PyDict.mk [("detection_scores", 0); ("detection_classes", 1)] eq_refl) /\
  keys_are_names (PyDict.mk [("detection_scores", 0); ("detection_classes", 1)] eq_refl)
  = true /\
  PyDict.get (PyDict.mk [("detection_scores", 0); ("detection_classes", 1)] eq_refl)
    "detection_classes" = Some 1 /\
  eval (NUM := Z_numeric) (codec := toy_codec) (w_graph label_detector_world) 1
  = Ret (VString [2%Z] ["cat"; "dog"]) /\
  result_of (LayerInjector.object_detection_dict_to_tensor_dict (NUM := Z_numeric)
               LayerInjector.instance 0 [] label_detector_world)
  = Raise TypeError.
Proof.
  split; [reflexivity|]. split; [reflexivity|]. split; [reflexivity|]. split; [reflexivity|].
  exact (postprocess_refuses_string_classes (NUM := Z_numeric) (codec := toy_codec)
           LayerInjector.instance 0 [] label_detector_world _ 1 [2%Z] ["cat"; "dog"]
           eq_refl eq_refl eq_refl eq_refl).
Defined.

Lemma postprocess_refuses_a_key_that_is_no_name_run :
  nth_error (w_heap label_detector_world) 1
  = Some (PyDict.mk [("detection_scores", 0); ("detection scores", 0)] eq_refl) /\
  PyDict.items (PyDict.mk [("detection_scores", 0); ("detection scores", 0)] eq_refl)
  = [("detection_scores", 0)] ++ ("detection scores", 0) :: [] /\
  forallb simple_name (PyDict.keys_of [("detection_scores", 0)]) = true /\
  classes_numeric (w_graph label_detector_world)
    (PyDict.mk [("detection_scores", 0); ("detection scores", 0)] eq_refl) = true /\
  valid_op_name "detection scores" = false /\
  result_of (LayerInjector.object_detection_dict_to_tensor_dict (NUM := Z_numeric)
               LayerInjector.instance 1 [] label_detector_world)
  = Raise ValueError.
Proof.
  split; [reflexivity|]. split; [reflexivity|]. split; [reflexivity|]. split; [reflexivity|].
  split; [reflexivity|].
  exact (postprocess_refuses_a_key_that_is_no_name (NUM := Z_numeric)
           LayerInjector.instance 1 [] label_detector_world _
           [("detection_scores", 0)] "detection scores" 0 []
           eq_refl eq_refl eq_refl eq_refl eq_refl).
Defined.

(** The keys named before the refused one have their operations in the
    graph. *)
Example postprocess_key_no_name :
  map (node_name (num := Z))
      (w_graph (state_of (LayerInjector.object_detection_dict_to_tensor_dict
                            (NUM := Z_numeric) LayerInjector.instance 1 []
                            label_detector_world)))
  = [Some "detection_scores"; Some "labels"; Some "scores"].
Proof. reflexivity. Qed.

Example postprocess_detector_run :
  result_of (LayerInjector.object_detection_dict_to_tensor_dict (NUM := Z_numeric)
               LayerInjector.instance 0 [PyInt 7; PyStr "unused"] detector_world)
  = Ret (["detection_boxes"; "detection_scores"; "detection_classes"], false).
Proof. reflexivity. Qed.

Example postprocess_detector_names :
  map (node_name (num := Z))
      (w_graph (state_of (LayerInjector.object_detection_dict_to_tensor_dict
                            (NUM := Z_numeric) LayerInjector.instance 0 [] detector_world)))
  = [Some "detection_classes"; Some "add"; Some "add/y"; Some "detection_scores";
     Some "detection_boxes"; Some "classes"; Some "scores"; Some "boxes"].
Proof. reflexivity. Qed.

Example postprocess_missing_dictionary :
  result_of (LayerInjector.object_detection_dict_to_tensor_dict (NUM := Z_numeric)
               LayerInjector.instance 3 [] detector_world)
  = Raise DanglingReference.
Proof. reflexivity. Qed.

(** ** The preprocessing call *)

Lemma preprocess_batch_of_one_run :
  eval (NUM := Z_numeric) (codec := toy_codec) (w_graph png_world) 0
    = Ret (VString [1%Z] ["rgb-2x3.png"]) /\
  nd.num_elements [1%Z] = 1%Z /\
  png_parse (ImageCodec := toy_codec) "rgb-2x3.png" = Some (blank_image 2 3 3) /\
  (3 = 1 \/ 3 = 3 \/ 3 = 4)%Z /\
  exists t w' decoded v,
    LayerInjector.bitstring_to_uint8_tensor LayerInjector.instance 0 3%Z [] png_world
      = (Ret t, w') /\
    nd.decode_png (NUM := Z_numeric) (codec := toy_codec) (VString [] ["rgb-2x3.png"]) 3
      = Ret decoded /\
    eval (NUM := Z_numeric) (codec := toy_codec) (w_graph w') t = Ret v /\
    nd.rank v = S (nd.rank decoded) /\
    nd.shape v = 1%Z :: nd.shape decoded /\
    v = VNumeric DT_UINT8 [1; 2; 3; 3]%Z (repeat 0%Z 18) /\
    (3 = 3 -> 3%Z = 3%Z -> nd.shape v = [1; 2; 3; 3]%Z).
Proof.
  assert (Hc : (3 = 1 \/ 3 = 3 \/ 3 = 4)%Z) by (right; left; reflexivity).
  repeat split; [exact Hc|].
  exact (preprocess_batch_of_one (NUM := Z_numeric) (codec := toy_codec)
           LayerInjector.instance 0 3%Z [] png_world [1%Z] "rgb-2x3.png"
           (blank_image 2 3 3) eq_refl eq_refl eq_refl Hc).
Defined.

Lemma preprocess_keeps_file_channels_run :
  eval (NUM := Z_numeric) (codec := toy_codec) (w_graph png_world) 0
    = Ret (VString [1%Z] ["rgb-2x3.png"]) /\
  nd.num_elements [1%Z] = 1%Z /\
  png_parse (ImageCodec := toy_codec) "rgb-2x3.png" = Some (blank_image 2 3 3) /\
  exists t w' v,
    LayerInjector.bitstring_to_uint8_tensor LayerInjector.instance 0 0%Z [] png_world
      = (Ret t, w') /\
    eval (NUM := Z_numeric) (codec := toy_codec) (w_graph w') t = Ret v /\
    nd.shape v = [1; 2; 3; 3]%Z.
Proof.
  repeat split.
  exact (preprocess_keeps_file_channels (NUM := Z_numeric) (codec := toy_codec)
           LayerInjector.instance 0 [] png_world [1%Z] "rgb-2x3.png"
           (blank_image 2 3 3) eq_refl eq_refl eq_refl).
Defined.

Lemma preprocess_rejects_run :
  eval (NUM := Z_numeric) (codec := toy_codec) (w_graph png_world) 0
    = Ret (VString [1%Z] ["rgb-2x3.png"]) /\
  nd.num_elements [1%Z] = 1%Z /\
  (0 <= 2)%Z /\
  (png_parse (ImageCodec := toy_codec) "rgb-2x3.png" = None \/ ~ In 2%Z [0; 1; 3; 4]%Z) /\
  exists t w',
    LayerInjector.bitstring_to_uint8_tensor LayerInjector.instance 0 2%Z [] png_world
      = (Ret t, w') /\
    eval (NUM := Z_numeric) (codec := toy_codec) (w_graph w') t
      = Raise InvalidArgumentError.
Proof.
  assert (Hbad : png_parse (ImageCodec := toy_codec) "rgb-2x3.png" = None
                 \/ ~ In 2%Z [0; 1; 3; 4]%Z).
  { right. simpl. intros [H|[H|[H|[H|[]]]]]; discriminate H. }
  assert (Hc : (0 <= 2)%Z) by discriminate.
  repeat split; [exact Hc | exact Hbad |].
  exact (preprocess_rejects (NUM := Z_numeric) (codec := toy_codec)
           LayerInjector.instance 0 2%Z [] png_world [1%Z] "rgb-2x3.png"
           eq_refl eq_refl Hc Hbad).
Defined.

Lemma preprocess_needs_one_bitstring_run :
  eval (NUM := Z_numeric) (codec := toy_codec) (w_graph two_png_world) 0
    = Ret (VString [2%Z] ["rgb-2x3.png"; "gray-5x4.png"]) /\
  nd.num_elements (nd.shape (num := Z) (VString [2%Z] ["rgb-2x3.png"; "gray-5x4.png"])) <> 1%Z /\
  static_shape (w_graph two_png_world) 0 <> None /\
  LayerInjector.bitstring_to_uint8_tensor LayerInjector.instance 0 3%Z [] two_png_world
  = (Raise ValueError, two_png_world).
Proof.
  assert (Hn : nd.num_elements
                 (nd.shape (num := Z) (VString [2%Z] ["rgb-2x3.png"; "gray-5x4.png"])) <> 1%Z)
    by discriminate.
  assert (Hknown : static_shape (w_graph two_png_world) 0 <> None) by discriminate.
  split; [reflexivity|]. split; [exact Hn|]. split; [exact Hknown|].
  exact (proj1 (proj2 (preprocess_needs_one_bitstring (NUM := Z_numeric) (codec := toy_codec)
                         LayerInjector.instance 0 3%Z [] two_png_world _ eq_refl Hn))
           Hknown).
Defined.

(** The same batch of two fed to a placeholder declared without a shape:
    the call returns, and the run fails. *)
Example preprocess_fed_batch :
  let r := LayerInjector.bitstring_to_uint8_tensor LayerInjector.instance 0 3%Z []
             two_png_fed_world in
  result_of r = Ret 3 /\
  eval (NUM := Z_numeric) (codec := toy_codec) (w_graph (state_of r)) 3
  = Raise InvalidArgumentError.
Proof. split; reflexivity. Qed.

Example preprocess_gray_as_rgba :
  let w := {| w_graph := [ {| node_name := None;
                              node_op := OpValue (VString [] ["gray-5x4.png"]) |} ];
              w_heap := []; w_log := [] |} in
  let r := LayerInjector.bitstring_to_uint8_tensor LayerInjector.instance 0 4%Z [] w in
  outcome_bind (result_of r)
    (fun t => outcome_bind (eval (NUM := Z_numeric) (codec := toy_codec) (w_graph (state_of r)) t)
                (fun v => Ret (nd.shape v)))
  = Ret [1; 5; 4; 4]%Z.
Proof. reflexivity. Qed.

Example preprocess_two_channels_refused :
  let r := LayerInjector.bitstring_to_uint8_tensor LayerInjector.instance 0 2%Z [] png_world in
  outcome_bind (result_of r)
    (fun t => eval (NUM := Z_numeric) (codec := toy_codec) (w_graph (state_of r)) t)
  = Raise InvalidArgumentError.
Proof. reflexivity. Qed.

Lemma preprocess_refuses_negative_channels_run :
  eval (NUM := Z_numeric) (codec := toy_codec) (w_graph png_world) 0
    = Ret (VString [1%Z] ["rgb-2x3.png"]) /\
  nd.num_elements [1%Z] = 1%Z /\
  (-1 < 0)%Z /\
  result_of (LayerInjector.bitstring_to_uint8_tensor LayerInjector.instance 0 (-1)%Z []
               png_world)
  = Raise ValueError.
Proof.
  assert (Hc : (-1 < 0)%Z) by reflexivity.
  split; [reflexivity|]. split; [reflexivity|]. split; [exact Hc|].
  exact (preprocess_refuses_negative_channels (NUM := Z_numeric) (codec := toy_codec)
           LayerInjector.instance 0 (-1)%Z [] png_world [1%Z] "rgb-2x3.png"
           eq_refl eq_refl Hc).
Defined.

(** A tensor of numbers where the bytes are expected. *)
Example preprocess_not_a_string :
  let w := {| w_graph := [ {| node_name := None;
                              node_op := OpPlaceholder (VNumeric DT_UINT8 [] [7%Z]) |} ];
              w_heap := []; w_log := [] |} in
  result_of (LayerInjector.bitstring_to_uint8_tensor LayerInjector.instance 0 3%Z [] w)
  = Raise TypeError.
Proof. reflexivity. Qed.

(** ** The inference function *)

Lemma inference_wraps_the_three_stages_run :
  ServerBuilder.object_detection_inference toy_model 0 pixel_world
  = (Ret 1,
     {| w_graph :=
          [ {| node_name := None; node_op := OpIdentity 3 |};
            {| node_name := None; node_op := OpIdentity 2 |};
            {| node_name := None; node_op := OpIdentity 1 |};
            {| node_name := None; node_op := OpCast 0 DT_FLOAT |};
            {| node_name := None;
               node_op := OpValue (VNumeric DT_UINT8 [1; 1; 1; 3]%Z [10; 20; 30]%Z) |} ];
        w_heap := [ PyDict.mk [("prediction", 3)] eq_refl;
                    PyDict.mk [("detection_classes", 4)] eq_refl ];
        w_log := [EvModelPreprocess; EvModelPredict; EvModelPostprocess] |}) /\
  eval (NUM := Z_numeric) (codec := toy_codec)
       ({| node_name := None; node_op := OpCast 0 DT_FLOAT |} :: w_graph pixel_world) 1
  = Ret (VNumeric DT_FLOAT [1; 1; 1; 3]%Z [10; 20; 30]%Z).
Proof.
  exact (inference_wraps_the_three_stages (NUM := Z_numeric) (codec := toy_codec)
           toy_model 0 pixel_world 2 1 0 1 _ _ _ eq_refl eq_refl eq_refl).
Defined.

Lemma inference_stops_at_the_failing_stage_run :
  ServerBuilder.object_detection_inference failing_model 0 pixel_world
  = (Raise ValueError,
     {| w_graph :=
          [ {| node_name := None; node_op := OpIdentity 1 |};
            {| node_name := None; node_op := OpCast 0 DT_FLOAT |};
            {| node_name := None;
               node_op := OpValue (VNumeric DT_UINT8 [1; 1; 1; 3]%Z [10; 20; 30]%Z) |} ];
        w_heap := [];
        w_log := [EvModelPreprocess; EvModelPredict] |}).
Proof.
  exact (proj1 (proj2 (inference_stops_at_the_failing_stage
                         (NUM := Z_numeric) (codec := toy_codec) failing_model 0 pixel_world))
           2 1 _ ValueError _ eq_refl eq_refl).
Defined.

Lemma inference_then_postprocess_run :
  keys_are_names (PyDict.mk [("detection_classes", 4)] eq_refl) = true /\
  exists w' added,
    bind (ServerBuilder.object_detection_inference toy_model 0)
         (fun output =>
            LayerInjector.object_detection_dict_to_tensor_dict (NUM := Z_numeric)
              LayerInjector.instance output [])
         pixel_world
    = (Ret (["detection_classes"], false), w') /\
    w_heap w' = [ PyDict.mk [("prediction", 3)] eq_refl;
                  PyDict.mk [("detection_classes", 4)] eq_refl ] /\
    w_log w' = [EvModelPreprocess; EvModelPredict; EvModelPostprocess] /\
    w_graph w'
    = added ++ [ {| node_name := None; node_op := OpIdentity 3 |};
                 {| node_name := None; node_op := OpIdentity 2 |};
                 {| node_name := None; node_op := OpIdentity 1 |};
                 {| node_name := None; node_op := OpCast 0 DT_FLOAT |};
                 {| node_name := None;
                    node_op := OpValue (VNumeric DT_UINT8 [1; 1; 1; 3]%Z [10; 20; 30]%Z) |} ] /\
    length added = 1 + 2.
Proof.
  split; [reflexivity|].
  exact (inference_then_postprocess (NUM := Z_numeric) (codec := toy_codec)
           toy_model 0 LayerInjector.instance [] pixel_world 2 1 0 1 _ _ _
           (PyDict.mk [("detection_classes", 4)] eq_refl)
           eq_refl eq_refl eq_refl eq_refl eq_refl eq_refl).
Defined.

Lemma preprocess_then_to_float_run :
  exists inputs w',
    bind (LayerInjector.bitstring_to_uint8_tensor LayerInjector.instance 0 3%Z [])
         tf.to_float png_world = (Ret inputs, w') /\
    eval (NUM := Z_numeric) (codec := toy_codec) (w_graph w') inputs
    = Ret (VNumeric DT_FLOAT [1; 2; 3; 3]%Z (repeat 0%Z 18)).
Proof.
  exact (preprocess_then_to_float (NUM := Z_numeric) (codec := toy_codec)
           LayerInjector.instance 0 3%Z [] png_world [1%Z] "rgb-2x3.png"
           (blank_image 2 3 3) eq_refl eq_refl eq_refl (or_intror (or_introl eq_refl))).
Defined.

(** ** The client *)

Lemma visualize_bad_image_stops_early_run :
  (0 <= ObjectDetectionClient.image_size (client_of_size 5))%Z /\
  exists w',
    ObjectDetectionClient.visualize (NUM := Z_numeric) (codec := toy_codec) toy_utils
      (client_of_size 5) "square-4x4.jpg" toy_response 0%Z empty_world
    = (Raise InvalidArgumentError, w') /\
    w_log w' = [EvSessionRun] /\
    w_heap w' = [].
Proof.
  assert (Hs : (0 <= ObjectDetectionClient.image_size (client_of_size 5))%Z) by discriminate.
  split; [exact Hs|].
  refine (visualize_bad_image_stops_early (NUM := Z_numeric) (codec := toy_codec)
            toy_utils _ "square-4x4.jpg" toy_response 0%Z empty_world
            _ _ _ eq_refl eq_refl eq_refl Hs _).
  intros img Himg. injection Himg as <-. discriminate.
Defined.

Lemma visualize_missing_key_raises_run :
  find (fun k => negb (PyDict.mem k
                         (PyDict.keys (PyDict.mk [("detection_boxes", [0%Z]);
                                                  ("detection_scores", [9%Z])] eq_refl))))
       ["detection_boxes"; "detection_classes"; "detection_scores"]
  = Some "detection_classes" /\
  ObjectDetectionClient.visualize (NUM := Z_numeric) (codec := toy_codec) toy_utils toy_client
    "square-4x4.jpg"
    (PyDict.mk [("detection_boxes", [0%Z]); ("detection_scores", [9%Z])] eq_refl)
    0%Z empty_world
  = (Raise (KeyError "detection_classes"), empty_world).
Proof.
  split; [reflexivity|].
  exact (visualize_missing_key_raises (NUM := Z_numeric) (codec := toy_codec)
           toy_utils toy_client "square-4x4.jpg"
           (PyDict.mk [("detection_boxes", [0%Z]); ("detection_scores", [9%Z])] eq_refl)
           0%Z empty_world "detection_classes" eq_refl).
Defined.

Lemma output_files_differ_run :
  9%Z <> 10%Z /\
  ObjectDetectionClient.output_file toy_client 9 <> ObjectDetectionClient.output_file toy_client 10.
Proof.
  assert (H : 9%Z <> 10%Z) by discriminate.
  split; [exact H | exact (output_files_differ toy_client 9 10 H)].
Defined.

Example client_square_image :
  let r := ObjectDetectionClient.bitstring_to_uint8_tensor toy_client "square-4x4.jpg"
             empty_world in
  outcome_bind (result_of r)
    (fun t => outcome_bind (eval (NUM := Z_numeric) (codec := toy_codec) (w_graph (state_of r)) t)
                (fun v => Ret (nd.shape v)))
  = Ret [4; 4; 3]%Z.
Proof. reflexivity. Qed.

Example client_wide_image :
  let r := ObjectDetectionClient.bitstring_to_uint8_tensor toy_client "wide-2x8.jpg"
             empty_world in
  outcome_bind (result_of r)
    (fun t => outcome_bind (eval (NUM := Z_numeric) (codec := toy_codec) (w_graph (state_of r)) t)
                (fun v => Ret (nd.shape v)))
  = Ret [4; 4; 3]%Z.
Proof. reflexivity. Qed.

Example client_other_size :
  let r := ObjectDetectionClient.bitstring_to_uint8_tensor (client_of_size 5)
             "square-4x4.jpg" empty_world in
  outcome_bind (result_of r)
    (fun t => eval (NUM := Z_numeric) (codec := toy_codec) (w_graph (state_of r)) t)
  = Raise InvalidArgumentError.
Proof. reflexivity. Qed.

Lemma visualize_refused_before_the_run_run :
  (ObjectDetectionClient.image_size (client_of_size (-2)) < -1)%Z /\
  result_of (ObjectDetectionClient.visualize (NUM := Z_numeric) (codec := toy_codec)
               toy_utils (client_of_size (-2)) "square-4x4.jpg" toy_response 0%Z empty_world)
  = Raise ValueError /\
  w_log (state_of (ObjectDetectionClient.visualize (NUM := Z_numeric) (codec := toy_codec)
                     toy_utils (client_of_size (-2)) "square-4x4.jpg" toy_response 0%Z
                     empty_world))
  = [] /\
  w_heap (state_of (ObjectDetectionClient.visualize (NUM := Z_numeric) (codec := toy_codec)
                      toy_utils (client_of_size (-2)) "square-4x4.jpg" toy_response 0%Z
                      empty_world))
  = [].
Proof.
  assert (Hs : (ObjectDetectionClient.image_size (client_of_size (-2)) < -1)%Z)
    by reflexivity.
  split; [exact Hs|].
  exact (visualize_refused_before_the_run (NUM := Z_numeric) (codec := toy_codec)
           toy_utils (client_of_size (-2)) "square-4x4.jpg" toy_response 0%Z empty_world
           _ _ _ eq_refl eq_refl eq_refl Hs).
Defined.

(** An [image_size] of -2 stops the helper while it builds the graph, and
    [visualize] before any session run. *)
Example client_size_below_minus_one :
  result_of (ObjectDetectionClient.bitstring_to_uint8_tensor (client_of_size (-2))
               "square-4x4.jpg" empty_world)
  = Raise ValueError /\
  result_of (ObjectDetectionClient.visualize (NUM := Z_numeric) (codec := toy_codec)
               toy_utils (client_of_size (-2)) "square-4x4.jpg" toy_response 0%Z empty_world)
  = Raise ValueError /\
  w_log (state_of (ObjectDetectionClient.visualize (NUM := Z_numeric) (codec := toy_codec)
                     toy_utils (client_of_size (-2)) "square-4x4.jpg" toy_response 0%Z
                     empty_world))
  = [].
Proof. repeat split. Qed.

(** An [image_size] of -1 leaves two dimensions open: the graph is built,
    and the run refuses the reshape. *)
Example client_size_minus_one :
  let r := ObjectDetectionClient.bitstring_to_uint8_tensor (client_of_size (-1))
             "square-4x4.jpg" empty_world in
  result_of r = Ret 3 /\
  eval (NUM := Z_numeric) (codec := toy_codec) (w_graph (state_of r)) 3
  = Raise InvalidArgumentError.
Proof. split; reflexivity. Qed.

Example visualize_log :
  w_log (state_of (ObjectDetectionClient.visualize (NUM := Z_numeric) (codec := toy_codec)
                     toy_utils toy_client "square-4x4.jpg" toy_response 12%Z empty_world))
  = [EvSessionRun; EvLoadLabelmap "labels.pbtxt"; EvDrawBoxes;
     EvSaveImage "out/images/output12.png"].
Proof. reflexivity. Qed.

Example visualize_missing_key :
  result_of (ObjectDetectionClient.visualize (NUM := Z_numeric) (codec := toy_codec)
               toy_utils toy_client "square-4x4.jpg"
               (PyDict.mk [("detection_boxes", [0%Z])] eq_refl) 0%Z empty_world)
  = Raise (KeyError "detection_classes").
Proof. reflexivity. Qed.

(** ** Element arithmetic *)

Example int32_wraps :
  num_add (Numeric := Z_numeric) DT_INT32 2147483647%Z 1%Z = (-2147483648)%Z.
Proof. reflexivity. Qed.

Example uint8_wraps :
  num_add (Numeric := Z_numeric) DT_UINT8 255%Z 1%Z = 0%Z.
Proof. reflexivity. Qed.

Example float32_rounds :
  num_add (Numeric := Z_numeric) DT_FLOAT 16777216%Z 1%Z = 16777216%Z /\
  num_cast (Numeric := Z_numeric) DT_INT32 DT_FLOAT 16777217%Z = 16777216%Z /\
  num_cast (Numeric := Z_numeric) DT_INT32 DT_FLOAT 16777219%Z = 16777220%Z.
Proof. repeat split. Qed.
